(** * The nonlinear epistasis estimator: parameter bookkeeping and the
      two-stage fit

    A shallow embedding of [epistasis/models/nonlinear/regression.py]:
    the [Parameters] container and the methods of
    [EpistasisNonlinearRegression] that orchestrate the linear sub-models,
    the nonlinear least-squares solver and the user-supplied functions.

    A [Parameters] object is its attribute dictionary, the estimator a
    record of its attributes, and both live in a world of objects with
    addresses.  A raised exception is a value of [res].  What lies outside
    the file is a parameter: numpy in the class [Numeric], the linear
    sub-estimator and [curve_fit] in the class [Externals], the user's two
    functions in the record [pyfunction]. *)

From stdpp Require Import gmap strings list fin_maps.

Open Scope string_scope.
Open Scope Z_scope.

(** ** Exceptions and fallible results *)

Inductive exn :=
| Exception (msg : string)
| AttributeError (name : string)
| TypeError (msg : string)
| KeyError
| IndexError
| ValueError
| OSError
| ExternalError (msg : string).

Inductive res (A : Type) :=
| Ok (a : A)
| Raise (e : exn).
Arguments Ok {A} a.
Arguments Raise {A} e.

Global Instance res_ret : MRet res := λ A a, Ok a.
Global Instance res_bind : MBind res := λ A B f m,
  match m with Ok a => f a | Raise e => Raise e end.
Global Instance res_fmap : FMap res := λ A B f m,
  match m with Ok a => Ok (f a) | Raise e => Raise e end.

Definition from_option {A} (e : exn) (o : option A) : res A :=
  match o with Some a => Ok a | None => Raise e end.

(** [for x in l: acc = body(acc, x)], stopping at the first exception. *)
Fixpoint for_each {A S} (body : S → A → res S) (l : list A) (s : S) : res S :=
  match l with
  | [] => Ok s
  | x :: l' => s' ← body s x; for_each body l' s'
  end.

(** ** The numerical world outside the repository *)

Class Numeric := {
  scalar : Type;
  zero : scalar;
  one : scalar;
  (** a Python int converted to a float (as [np.concatenate] does) *)
  of_int : Z → scalar;
  (** the integer a float is equal to, if any: a float used as a key of a
      dictionary with integer keys finds the key it equals *)
  as_integer : scalar → option Z;
  (** a design matrix, and [np.dot(X, v)] *)
  matrix : Type;
  np_dot : option matrix → list scalar → res (list scalar);
  (** [1 / np.sqrt(w)], elementwise *)
  inv_sqrt : list scalar → list scalar;
}.

Section Values.
Context `{Numeric}.

Definition vector := list scalar.

(** The values that the code stores in the attributes of a [Parameters]
    instance: the number of a parameter, the list of names and the two
    lookup dictionaries.  [PyClassMember name] is what attribute lookup
    finds on the class when the instance dictionary has no entry (a bound
    method, a property, a slot inherited from [object]); the code never
    stores one. *)
Inductive pyval :=
| PyInt (z : Z)
| PyNum (s : scalar)
| PyStrList (l : list string)
| PyNameIndex (d : gmap string Z)
| PyIndexName (d : gmap Z string)
| PyClassMember (name : string).

(** An instance is its [__dict__]. *)
Abbreviation instance := (gmap string pyval).

(** ** Attribute access on a [Parameters] instance *)

(** Names bound on the class to data descriptors: the two read-only
    properties of [Parameters] and the three slots of [object].  They win
    over the instance dictionary and refuse assignment. *)
Definition properties : list string := ["keys"; "values"].
Definition object_slots : list string := ["__class__"; "__dict__"; "__weakref__"].

(** The other names bound on the class (methods, and what [object]
    provides); an entry of the instance dictionary shadows them. *)
Definition methods : list string :=
  ["__init__"; "to_json"; "__call__"; "_set_param"; "get_params"].
Definition object_members : list string :=
  ["__delattr__"; "__dir__"; "__doc__"; "__eq__"; "__format__"; "__ge__";
   "__getattribute__"; "__gt__"; "__hash__"; "__init_subclass__"; "__le__";
   "__lt__"; "__module__"; "__ne__"; "__new__"; "__reduce__"; "__reduce_ex__";
   "__repr__"; "__setattr__"; "__sizeof__"; "__str__"; "__subclasshook__"].

(** [setattr(self, name, value)] *)
Definition setattr (o : instance) (name : string) (v : pyval) : res instance :=
  if decide (name ∈ properties) then
    Raise (AttributeError name)                    (* property without setter *)
  else if decide (name = "__weakref__") then
    Raise (AttributeError name)                    (* not writable *)
  else if decide (name ∈ object_slots) then
    Raise (TypeError "must be set to a class or a dictionary")
  else Ok (<[name := v]> o).

(** [getattr(self, name)].  Reading a property through a dynamic name
    would run its getter; [setattr] refuses those names, so no parameter
    of a constructed object has one, and the model answers with the
    opaque class member. *)
Definition getattr (o : instance) (name : string) : res pyval :=
  if decide (name ∈ (properties ++ object_slots)%list) then Ok (PyClassMember name)
  else match o !! name with
       | Some v => Ok v
       | None =>
           if decide (name ∈ (methods ++ object_members)%list)
           then Ok (PyClassMember name)
           else Raise (AttributeError name)
       end.

(** [self.name(...)] for a method [name]: an entry of the instance
    dictionary shadows the method, and the numbers and containers stored
    there are not callable. *)
Definition invoke {A} (o : instance) (name : string) (body : res A) : res A :=
  match o !! name with
  | Some _ => Raise (TypeError "object is not callable")
  | None => body
  end.

(** Reading the four bookkeeping attributes at the type the code uses
    them: a number is neither iterable nor subscriptable. *)
Definition get_param_list (o : instance) : res (list string) :=
  v ← getattr o "_param_list";
  match v with
  | PyStrList l => Ok l
  | _ => Raise (TypeError "object is not subscriptable")
  end.

Definition get_mapping (o : instance) : res (gmap string Z) :=
  v ← getattr o "_mapping";
  match v with
  | PyNameIndex d => Ok d
  | _ => Raise (TypeError "object is not subscriptable")
  end.

Definition get_mapping_ (o : instance) : res (gmap Z string) :=
  v ← getattr o "_mapping_";
  match v with
  | PyIndexName d => Ok d
  | _ => Raise (TypeError "object is not subscriptable")
  end.

(** [self.n] where an integer is required ([range], [np.ones], a slice
    bound). *)
Definition get_n (o : instance) : res Z :=
  v ← getattr o "n";
  match v with
  | PyInt z => Ok z
  | _ => Raise (TypeError "object cannot be interpreted as an integer")
  end.

(** [range(n)] *)
Definition range (n : Z) : list Z := Z.of_nat <$> seq 0 (Z.to_nat n).

(** [l[i]] for a list and a non-negative or negative index. *)
Definition list_getitem {A} (l : list A) (i : Z) : res A :=
  let len := Z.of_nat (length l) in
  if decide (0 ≤ i < len) then from_option IndexError (l !! Z.to_nat i)
  else if decide (- len ≤ i < 0) then from_option IndexError (l !! Z.to_nat (len + i))
  else Raise IndexError.

End Values.

Abbreviation instance := (gmap string pyval).

(** ** class Parameters *)

Module Parameters.
Section Parameters.
Context `{Numeric}.

(** One turn of the loop of [__init__]; every attribute is read from the
    instance again, as the code does. *)
Definition init_step (o : instance) (i : Z) : res instance :=
  (* setattr(self, self._param_list[i], 0) *)
  l ← get_param_list o;
  name ← list_getitem l i;
  o ← setattr o name (PyInt 0);
  (* self._mapping_[i] = self._param_list[i] *)
  l ← get_param_list o;
  name ← list_getitem l i;
  m_ ← get_mapping_ o;
  let o := <["_mapping_" := PyIndexName (<[i := name]> m_)]> o in
  (* self._mapping[self._param_list[i]] = i *)
  m ← get_mapping o;
  l ← get_param_list o;
  name ← list_getitem l i;
  Ok (<["_mapping" := PyNameIndex (<[name := i]> m)]> o).

Definition __init__ (params : list string) : res instance :=
  let o : instance := {["_param_list" := PyStrList params]} in
  let o := <["n" := PyInt (Z.of_nat (length params))]> o in
  let o := <["_mapping" := PyNameIndex ∅]> o in
  let o := <["_mapping_" := PyIndexName ∅]> o in
  n ← get_n o;
  for_each init_step (range n) o.

(** The property [keys]. *)
Definition keys (o : instance) : res (list string) := get_param_list o.

(** The property [values]. *)
Definition values (o : instance) : res (list pyval) :=
  l ← get_param_list o;
  mapM (getattr o) l.

(** The first argument of [_set_param]: an index, as an int or as a
    float, or a name. *)
Inductive param :=
| PIndex (i : Z)
| PFloat (x : scalar)
| PName (name : string).

Definition _set_param (o : instance) (p : param) (value : pyval) : res instance :=
  name ← match p with
         | PIndex i => m_ ← get_mapping_ o; from_option KeyError (m_ !! i)
         | PFloat x =>
             m_ ← get_mapping_ o;
             from_option KeyError (i ← as_integer x; m_ !! i)
         | PName name => Ok name
         end;
  setattr o name value.

Definition get_params (o : instance) : res (list pyval) :=
  m_ ← get_mapping_ o;
  mapM (λ i, name ← from_option KeyError (m_ !! i); getattr o name)
       (range (Z.of_nat (size m_))).

(** [dict(zip(keys, values))]: a Python dictionary keeps the order of
    first insertion and the value of the last one. *)
Fixpoint dict_setitem {V} (d : list (string * V)) (k : string) (v : V)
  : list (string * V) :=
  match d with
  | [] => [(k, v)]
  | (k', v') :: d' =>
      if decide (k' = k) then (k, v) :: d' else (k', v') :: dict_setitem d' k v
  end.

Definition dict {V} (pairs : list (string * V)) : list (string * V) :=
  foldl (λ d kv, dict_setitem d kv.1 kv.2) [] pairs.

Definition __call__ (o : instance) : res (list (string * pyval)) :=
  ks ← keys o;
  vs ← values o;
  Ok (dict (zip ks vs)).

(** *** [to_json]: files and [json.dump] *)

Record filesystem := {
  files : gmap string string;
  writable : string → bool;
}.

(** [open(filename, "w")] creates the file or empties it. *)
Definition open_w (fs : filesystem) (filename : string) : res filesystem :=
  if writable fs filename
  then Ok {| files := <[filename := EmptyString]> (files fs); writable := writable fs |}
  else Raise OSError.

(** What [to_json] hands to [json.dump]: the open file and a dictionary. *)
Inductive json_arg :=
| AFile (filename : string)
| ADict (d : list (string * pyval)).

(** [json.dump(obj, fp)] encodes [obj] and writes the text with
    [fp.write]; [encode] is the encoder of the [json] library on
    dictionaries.  An open file is not JSON serializable, and a dictionary
    has no [write]. *)
Definition json_dump (encode : list (string * pyval) → res string)
    (obj fp : json_arg) (fs : filesystem) : res () * filesystem :=
  match obj with
  | AFile _ =>
      (Raise (TypeError "Object of type TextIOWrapper is not JSON serializable"), fs)
  | ADict d =>
      match encode d, fp with
      | Raise e, _ => (Raise e, fs)
      | Ok _, ADict _ => (Raise (AttributeError "write"), fs)
      | Ok text, AFile name =>
          (Ok (), {| files := alter (λ old, old ++ text) name (files fs);
                     writable := writable fs |})
      end
  end.

Definition to_json (encode : list (string * pyval) → res string)
    (o : instance) (filename : string) (fs : filesystem) : res () * filesystem :=
  (* with open(filename, "w") as f: *)
  match open_w fs filename with
  | Raise e => (Raise e, fs)
  | Ok fs =>
      (* json.dump(f, self()) *)
      match __call__ o with
      | Raise e => (Raise e, fs)
      | Ok d => json_dump encode (AFile filename) (ADict d) fs
      end
  end.

End Parameters.
End Parameters.

(** ** The rest of the package, as far as the estimator uses it *)

(** Types declared elsewhere in the package: the genotype-phenotype map,
    the sites of an epistasis map, and the private state of an
    [EpistasisLinearRegression]. *)
Class Package `{Numeric} := {
  gpmap : Type;
  site : Type;
  linear_core : Type;
}.

Section Package.
Context `{Package}.

(** [self.epistasis], of which the estimator reads [sites] and [n]. *)
Record EpistasisMap := {
  sites : list site;
  n : Z;
}.

(** An [EpistasisLinearRegression] instance: the two attributes the
    estimator touches, [X] (absent, [None] or a matrix) and [coef_], and
    the rest of its state. *)
Record linear_model := {
  lm_X : option (option matrix);
  lm_coef_ : option vector;
  lm_core : linear_core;
}.

(** A Python function: the names of its declared arguments, as
    [inspect.signature] lists them, and what a call [f(x, *args)] does. *)
Record pyfunction := {
  signature : list string;
  call : option vector → list pyval → res vector;
}.

End Package.

(** The code the estimator calls into: the linear sub-estimator of the
    package and [scipy.optimize.curve_fit] with [method="trf"]. *)
Class Externals `{Package} := {
  (** [EpistasisLinearRegression(order=.., model_type=..)] *)
  linear_new : Z → string → res linear_model;
  (** [model.attach_gpm(gpm)] *)
  linear_attach_gpm : linear_model → gpmap → res linear_model;
  (** [model.fit(X=.., y=..)] *)
  linear_fit : linear_model → option matrix → option vector → res linear_model;
  (** [model.predict(X=..)] *)
  linear_predict : linear_model → option matrix → res (vector * linear_model);
  (** [curve_fit(f, x, y, p0=.., sigma=.., method="trf")], of which the
      estimator keeps [popt] *)
  curve_fit : pyfunction → vector → option vector → vector → option vector
              → res vector;
}.

(** What [score] needs besides: [epistasis.stats.pearson], the square of
    a float, and the [score] method of the linear sub-estimator. *)
Class Scoring `{Externals} := {
  pearson : option vector → vector → res scalar;
  square : scalar → scalar;
  linear_score : linear_model → option matrix → option vector
                 → res (scalar * linear_model);
}.

(** ** numpy on lists *)

Section Numpy.
Context `{Numeric}.

(** [np.ones(n)] and [np.zeros(n)] *)
Definition np_ones (n : Z) : res vector :=
  if decide (n < 0) then Raise ValueError else Ok (replicate (Z.to_nat n) one).
Definition np_zeros (n : nat) : vector := replicate n zero.

(** [a[i] = v] *)
Definition np_setitem (a : vector) (i : Z) (v : scalar) : res vector :=
  let len := Z.of_nat (length a) in
  if decide (0 ≤ i < len) then Ok (<[Z.to_nat i := v]> a)
  else if decide (- len ≤ i < 0) then Ok (<[Z.to_nat (len + i) := v]> a)
  else Raise IndexError.

(** [a[lo:hi]]: a bound below zero counts from the end, and both are
    clipped to the length. *)
Definition clip (len b : Z) : nat :=
  Z.to_nat (if decide (b < 0) then Z.max (b + len) 0 else Z.min b len).
Definition slice {A} (a : list A) (lo hi : Z) : list A :=
  let len := Z.of_nat (length a) in
  take (clip len hi - clip len lo)%nat (drop (clip len lo) a).

(** A Python number as an entry of a float array. *)
Definition to_scalar (v : pyval) : res scalar :=
  match v with
  | PyInt z => Ok (of_int z)
  | PyNum s => Ok s
  | _ => Raise (TypeError "not a number")
  end.

End Numpy.

(** ** class EpistasisNonlinearRegression *)

Module EpistasisNonlinearRegression.
Section Estimator.
Context `{Externals}.

(** Objects live in a store and are named by their address, so that two
    attributes can hold the same object. *)
Definition loc := nat.

(** The attributes of the estimator.  [__init__] sets the first six; the
    others are absent until some method sets them. *)
Record estimator := {
  function : pyfunction;
  reverse : pyfunction;
  parameters : loc;
  order : Z;
  model_type : string;
  fix_linear : bool;
  gpm : option gpmap;
  epistasis : option EpistasisMap;
  X : option (option matrix);
  Additive : option loc;
  Linear : option loc;
  coef_ : option vector;
}.

Definition set_Additive (a : loc) (s : estimator) : estimator :=
  {| function := function s; reverse := reverse s; parameters := parameters s;
     order := order s; model_type := model_type s; fix_linear := fix_linear s;
     gpm := gpm s; epistasis := epistasis s; X := X s;
     Additive := Some a; Linear := Linear s; coef_ := coef_ s |}.

Definition set_Linear (l : loc) (s : estimator) : estimator :=
  {| function := function s; reverse := reverse s; parameters := parameters s;
     order := order s; model_type := model_type s; fix_linear := fix_linear s;
     gpm := gpm s; epistasis := epistasis s; X := X s;
     Additive := Additive s; Linear := Some l; coef_ := coef_ s |}.

Definition set_coef_ (c : vector) (s : estimator) : estimator :=
  {| function := function s; reverse := reverse s; parameters := parameters s;
     order := order s; model_type := model_type s; fix_linear := fix_linear s;
     gpm := gpm s; epistasis := epistasis s; X := X s;
     Additive := Additive s; Linear := Linear s; coef_ := Some c |}.

(** Which of the user's two functions a call goes to. *)
Inductive user_function := TheFunction | TheReverse.

(** The calls that leave the estimator's own code, in the order made. *)
Inductive event :=
| EvNewLinear (order : Z) (model_type : string)
| EvAttachGpm (model : loc)
| EvLinearFit (model : loc) (X : option matrix) (y : option vector)
| EvLinearPredict (model : loc) (X : option matrix)
| EvCurveFit (f : user_function) (x : vector) (y : option vector)
             (p0 : vector) (sigma : option vector)
| EvCall (f : user_function) (x : option vector) (args : list pyval)
| EvInteractive.

Record world := {
  self : estimator;
  parameters_store : gmap loc instance;
  linear_store : gmap loc linear_model;
  trace : list event;
}.

(** *** Statements: state passing with exceptions

    An exception leaves the world as it was when it was raised. *)
Definition M (A : Type) : Type := world → res A * world.

Definition ret {A} (a : A) : M A := λ w, (Ok a, w).
Definition bind {A B} (m : M A) (k : A → M B) : M B := λ w,
  match m w with
  | (Ok a, w') => k a w'
  | (Raise e, w') => (Raise e, w')
  end.
Definition raise {A} (e : exn) : M A := λ w, (Raise e, w).
Definition lift {A} (r : res A) : M A := λ w, (r, w).

#[global] Instance M_ret : MRet M := @ret.
#[global] Instance M_bind : MBind M := λ A B k m, bind m k.

Definition get_self : M estimator := λ w, (Ok (self w), w).
Definition set_self (f : estimator → estimator) : M () := λ w,
  (Ok (), {| self := f (self w); parameters_store := parameters_store w;
             linear_store := linear_store w; trace := trace w |}).
Definition log (ev : event) : M () := λ w,
  (Ok (), {| self := self w; parameters_store := parameters_store w;
             linear_store := linear_store w; trace := trace w ++ [ev] |}).

(** [self.name] for an attribute that may be absent. *)
Definition attr {A} (name : string) (field : estimator → option A) : M A :=
  s ← get_self; lift (from_option (AttributeError name) (field s)).

(** [self.parameters], the object itself, and writing it back. *)
Definition the_parameters : M instance := λ w,
  (from_option (AttributeError "parameters")
     (parameters_store w !! parameters (self w)), w).
Definition store_parameters (o : instance) : M () := λ w,
  (Ok (), {| self := self w;
             parameters_store := <[parameters (self w) := o]> (parameters_store w);
             linear_store := linear_store w; trace := trace w |}).

(** The linear sub-models. *)
Definition get_linear (l : loc) : M linear_model := λ w,
  (from_option (AttributeError "model") (linear_store w !! l), w).
Definition store_linear (l : loc) (m : linear_model) : M () := λ w,
  (Ok (), {| self := self w; parameters_store := parameters_store w;
             linear_store := <[l := m]> (linear_store w); trace := trace w |}).

(** A call that leaves the estimator's code is recorded, then made. *)
Definition external {A} (ev : event) (r : res A) : M A :=
  log ev;; lift r.

(** [EpistasisLinearRegression(order=.., model_type=..)] at a new address. *)
Definition alloc_linear (m : linear_model) : M loc := λ w,
  let l := fresh (dom (linear_store w)) in
  (Ok l, {| self := self w; parameters_store := parameters_store w;
            linear_store := <[l := m]> (linear_store w); trace := trace w |}).
Definition new_linear (order : Z) (model_type : string) : M loc :=
  m ← external (EvNewLinear order model_type) (linear_new order model_type);
  alloc_linear m.

(** A method of the sub-model at [l] that may change it. *)
Definition call_linear {A} (l : loc) (ev : event)
    (method : linear_model → res (A * linear_model)) : M A :=
  m ← get_linear l;
  '(a, m') ← external ev (method m);
  store_linear l m';;
  mret a.

Definition linear_set_X (Xv : option matrix) (m : linear_model) : linear_model :=
  {| lm_X := Some Xv; lm_coef_ := lm_coef_ m; lm_core := lm_core m |}.

(** [for x in l: body(x)] *)
Fixpoint for_ {A} (l : list A) (body : A → M ()) : M () :=
  match l with
  | [] => mret ()
  | x :: l' => body x;; for_ l' body
  end.

(** *** [__init__] *)

Definition first_argument_message : string :=
  " First argument of the nonlinear function must be `x`. ".

Definition __init__ (function reverse : pyfunction) (order : Z)
    (model_type : string) (fix_linear : bool) : res world :=
  (* parameters = list(function_sign.parameters.keys()) *)
  let parameters := signature function in
  first ← list_getitem parameters 0;
  if decide (first ≠ "x") then Raise (Exception first_argument_message)
  else
    (* self.parameters = Parameters(parameters[1:]) *)
    o ← Parameters.__init__ (drop 1 parameters);
    (* self.set_params(order=order, model_type=model_type, fix_linear=fix_linear) *)
    Ok {| self := {| function := function; reverse := reverse; parameters := 0%nat;
                     order := order; model_type := model_type;
                     fix_linear := fix_linear;
                     gpm := None; epistasis := None; X := None;
                     Additive := None; Linear := None; coef_ := None |};
          parameters_store := {[0%nat := o]};
          linear_store := ∅;
          trace := [] |}.

(** *** [_fit_] *)

Definition _fit_ (Xv : option matrix) (y : option vector)
    (sample_weight : option vector) (kwargs : list (string * scalar)) : M () :=
  (* self.Additive.fit() *)
  a ← attr "Additive" Additive;
  call_linear a (EvLinearFit a None None)
    (λ m, m' ← linear_fit m None None; Ok ((), m'));;
  (* x = self.Additive.predict() *)
  a ← attr "Additive" Additive;
  x ← call_linear a (EvLinearPredict a None) (λ m, linear_predict m None);
  (* guesses = np.ones(self.parameters.n) *)
  o ← the_parameters;
  size ← lift (get_n o);
  guesses ← lift (np_ones size);
  (* for kw in kwargs: guesses[self.parameters._mapping[kw]] = kwargs[kw] *)
  o ← the_parameters;
  guesses ← lift (for_each (λ guesses kw,
                      mapping ← get_mapping o;
                      index ← from_option KeyError (mapping !! kw.1);
                      np_setitem guesses index kw.2) kwargs guesses);
  (* sigma = None, or 1 / np.sqrt(sample_weight) *)
  let sigma := inv_sqrt <$> sample_weight in
  (* popt, pcov = curve_fit(self.function, x, y, p0=guesses, sigma=sigma, method="trf") *)
  s ← get_self;
  popt ← external (EvCurveFit TheFunction x y guesses sigma)
                  (curve_fit (function s) x y guesses sigma);
  (* for i in range(0, self.parameters.n): self.parameters._set_param(i, popt[i]) *)
  o ← the_parameters;
  size ← lift (get_n o);
  for_ (range size) (λ i,
    o ← the_parameters;
    v ← lift (list_getitem popt i);
    o' ← lift (invoke o "_set_param"
                 (Parameters._set_param o (Parameters.PIndex i) (PyNum v)));
    store_parameters o');;
  s ← get_self;
  (if decide (1 < order s) then
     (* linearized_y = self.reverse(y, *self.parameters.values) *)
     o ← the_parameters;
     vals ← lift (Parameters.values o);
     linearized_y ← external (EvCall TheReverse y vals) (call (reverse s) y vals);
     (* self.Linear.fit(X=self.Linear.X, y=linearized_y) *)
     l ← attr "Linear" Linear;
     m ← get_linear l;
     lX ← lift (from_option (AttributeError "X") (lm_X m));
     call_linear l (EvLinearFit l lX (Some linearized_y))
       (λ m, m' ← linear_fit m lX (Some linearized_y); Ok ((), m'))
   else
     (* self.Linear = self.Additive *)
     a ← attr "Additive" Additive;
     set_self (set_Linear a));;
  (* self.coef_ = self.Linear.coef_ *)
  l ← attr "Linear" Linear;
  m ← get_linear l;
  c ← lift (from_option (AttributeError "coef_") (lm_coef_ m));
  set_self (set_coef_ c).

(** *** [fit]

    The method is wrapped by the decorator [X_fitter] of the package's
    [base] module, which is outside this file's source; what follows is
    the method as written. *)

Definition no_gpm_message : string :=
  "This model will not work if a genotype-phenotype map is not attached to the model class. Use the `attach_gpm` method".

(** What [fit] returns: the estimator itself, or the widget box. *)
Inductive fit_result := Self | WidgetBox.

Definition fit (Xv : option matrix) (y : option vector)
    (sample_weight : option vector) (use_widgets : bool)
    (kwargs : list (string * scalar)) : M fit_result :=
  s ← get_self;
  match gpm s with
  | None => raise (Exception no_gpm_message)
  | Some g =>
      (* self.Additive = EpistasisLinearRegression(order=1, model_type=self.model_type) *)
      a ← new_linear 1 (model_type s);
      set_self (set_Additive a);;
      (* self.Additive.attach_gpm(self.gpm) *)
      call_linear a (EvAttachGpm a) (λ m, m' ← linear_attach_gpm m g; Ok ((), m'));;
      (* self.Linear = EpistasisLinearRegression(order=self.order, model_type=self.model_type) *)
      l ← new_linear (order s) (model_type s);
      set_self (set_Linear l);;
      (* self.Linear.X = X *)
      m ← get_linear l;
      store_linear l (linear_set_X Xv m);;
      (* self.coef_ = np.zeros(len(self.epistasis.sites)) *)
      ep ← attr "epistasis" epistasis;
      set_self (set_coef_ (np_zeros (length (sites ep))));;
      if use_widgets then
        (* the widget box runs the fit when the notebook fires its callbacks *)
        external EvInteractive (Ok WidgetBox)
      else
        _fit_ Xv y sample_weight kwargs;;
        mret Self
  end.

(** *** [thetas] and [hypothesis]

    [hypothesis] is wrapped by the decorator [X_predictor] of the same
    module; what follows is the method as written. *)

Definition thetas : M vector :=
  (* np.concatenate((self.parameters.values, self.Linear.coef_)) *)
  o ← the_parameters;
  vals ← lift (Parameters.values o);
  l ← attr "Linear" Linear;
  m ← get_linear l;
  c ← lift (from_option (AttributeError "coef_") (lm_coef_ m));
  nonlinear ← lift (mapM to_scalar vals);
  mret (nonlinear ++ c)%list.

Definition no_X_message : string :=
  "A model matrix X needs to be attached to the model. Try calling `X_constructor()`.".

Definition hypothesis (Xv : option matrix) (thetas : option vector) : M vector :=
  s ← get_self;
  match X s with
  | None => raise (Exception no_X_message)
  | Some _ =>
      (* i, j = self.parameters.n, self.epistasis.n *)
      o ← the_parameters;
      i ← lift (getattr o "n");
      ep ← attr "epistasis" epistasis;
      let j := n ep in
      (* parameters = thetas[:i]; epistasis = thetas[i:i+j] *)
      th ← lift (from_option (TypeError "object is not subscriptable") thetas);
      i ← lift (match i with
                | PyInt z => Ok z
                | _ => Raise (TypeError "slice indices must be integers")
                end);
      let parameters := slice th 0 i in
      let epistasis := slice th i (i + j) in
      (* y1 = np.dot(X, epistasis) *)
      y1 ← lift (np_dot Xv epistasis);
      (* y2 = self.function(y1, *parameters) *)
      let args := PyNum <$> parameters in
      external (EvCall TheFunction (Some y1) args) (call (function s) (Some y1) args)
  end.

End Estimator.

Section Prediction.
Context `{Scoring}.

(** *** [predict] and [score]

    Both are wrapped by a decorator of the package's [base] module
    ([X_predictor], [X_fitter]); what follows is each method as written. *)

Definition predict (Xv : option matrix) : M vector :=
  (* x = self.Linear.predict(X) *)
  l ← attr "Linear" Linear;
  x ← call_linear l (EvLinearPredict l Xv) (λ m, linear_predict m Xv);
  (* y = self.function(x, *self.parameters.values) *)
  s ← get_self;
  o ← the_parameters;
  vals ← lift (Parameters.values o);
  external (EvCall TheFunction (Some x) vals) (call (function s) (Some x) vals).

(** A method of the sub-model at [l] for which the record of calls has no
    entry. *)
Definition ask_linear {A} (l : loc)
    (method : linear_model → res (A * linear_model)) : M A :=
  m ← get_linear l;
  '(a, m') ← lift (method m);
  store_linear l m';;
  mret a.

Definition score (Xv : option matrix) (y : option vector) : M (scalar * scalar) :=
  (* y_pred = self.function(self.Additive.predict(X=self.Additive.X),
                            *self.parameters.get_params()) *)
  s ← get_self;
  a ← attr "Additive" Additive;
  ma ← get_linear a;
  aX ← lift (from_option (AttributeError "X") (lm_X ma));
  x ← call_linear a (EvLinearPredict a aX) (λ m, linear_predict m aX);
  o ← the_parameters;
  params ← lift (invoke o "get_params" (Parameters.get_params o));
  y_pred ← external (EvCall TheFunction (Some x) params)
                    (call (function s) (Some x) params);
  (* y_rev = self.reverse(y, *self.parameters.get_params()) *)
  s ← get_self;
  o ← the_parameters;
  params ← lift (invoke o "get_params" (Parameters.get_params o));
  y_rev ← external (EvCall TheReverse y params) (call (reverse s) y params);
  (* return pearson(y, y_pred)**2, self.Linear.score(X=self.Linear.X, y=y_rev) *)
  r ← lift (pearson y y_pred);
  l ← attr "Linear" Linear;
  ml ← get_linear l;
  lX ← lift (from_option (AttributeError "X") (lm_X ml));
  r2 ← ask_linear l (λ m, linear_score m lX (Some y_rev));
  mret (square r, r2).

End Prediction.
End EpistasisNonlinearRegression.

(** ** The states of a [Parameters] object *)

Section States.
Context `{Numeric}.

(** The states the code puts a [Parameters] object in: [Parameters(names)]
    builds it, and [_fit_] stores a value by index, for the indices of
    [range(self.n)]. *)
Inductive reachable (names : list string) : instance → Prop :=
| reach_init o :
    Parameters.__init__ names = Ok o → reachable names o
| reach_set o size i v o' :
    reachable names o →
    get_n o = Ok size → 0 ≤ i < size →
    Parameters._set_param o (Parameters.PIndex i) v = Ok o' →
    reachable names o'.

(** The names the container uses for its own bookkeeping. *)
Definition bookkeeping : list string := ["_param_list"; "_mapping"; "_mapping_"].

(** What [__init__] has established once the names [done] are processed,
    and what storing values keeps. *)
Record inv_upto (names done : list string) (o : instance) : Prop := {
  inv_param_list : o !! "_param_list" = Some (PyStrList names);
  inv_mapping_ : o !! "_mapping_" = Some (PyIndexName (map_seqZ 0 done));
  inv_mapping : ∃ m, o !! "_mapping" = Some (PyNameIndex m) ∧
      (∀ name k, m !! name = Some k → 0 ≤ k ∧ done !! Z.to_nat k = Some name) ∧
      (∀ name, name ∈ done → is_Some (m !! name));
  inv_n : o !! "n" = Some (PyInt (if decide ("n" ∈ done) then 0
                                   else Z.of_nat (length names)));
  inv_names : Forall (λ p, p ∉ (properties ++ object_slots ++ bookkeeping)%list) done;
  inv_values : Forall (λ p, is_Some (o !! p)) done;
  inv_dom : ∀ p, is_Some (o !! p) → p ∈ ("n" :: bookkeeping ++ done)%list;
}.

Definition inv (names : list string) (o : instance) : Prop := inv_upto names names o.




End States.

(** ** Reading the code's loops as functions of the object *)

Section Readings.
Context `{Numeric}.

(** The value stored under a name. *)
Definition stored (o : instance) (p : string) : pyval := default (PyInt 0) (o !! p).

(** What the loop of [_fit_] over [range(self.n)] does to the
    [Parameters] object, given the solver's [popt]. *)
Definition store_solution (popt : vector) (o : instance) (size : Z) : res instance :=
  for_each (λ o i, v ← list_getitem popt i;
                   invoke o "_set_param"
                     (Parameters._set_param o (Parameters.PIndex i) (PyNum v)))
           (range size) o.

(** The [p0] that [_fit_] hands to the solver. *)
Definition initial_guesses (o : instance) (kwargs : list (string * scalar)) : res vector :=
  size ← get_n o;
  guesses ← np_ones size;
  for_each (λ guesses kw,
              mapping ← get_mapping o;
              index ← from_option KeyError (mapping !! kw.1);
              np_setitem guesses index kw.2) kwargs guesses.

End Readings.

Section Stages.
Context `{Externals}.
Import EpistasisNonlinearRegression.

Definition with_parameters (o : instance) (w : world) : world :=
  {| self := self w;
     parameters_store := <[parameters (self w) := o]> (parameters_store w);
     linear_store := linear_store w; trace := trace w |}.

(** [function(X·epistasis, *parameters)], the value [hypothesis] is said
    to return for the two pieces of [thetas]. *)
Definition function_of_pieces (Xv : option matrix) (parameters epistasis : vector)
  : M vector :=
  s ← get_self;
  y1 ← lift (np_dot Xv epistasis);
  external (EvCall TheFunction (Some y1) (PyNum <$> parameters))
           (call (function s) (Some y1) (PyNum <$> parameters)).

(** The calls of a pass through all four stages: the two sub-models are
    set up, the additive one is fitted and asked for its prediction, the
    solver runs once, the inverse function is applied, and the high-order
    model is fitted. *)
Definition four_stages (y : option vector) (evs : list event) : Prop :=
  ∃ a l o mt x p0 sigma vals lX ly,
    evs = [EvNewLinear 1 mt; EvAttachGpm a; EvNewLinear o mt;
           EvLinearFit a None None; EvLinearPredict a None;
           EvCurveFit TheFunction x y p0 sigma;
           EvCall TheReverse y vals;
           EvLinearFit l lX (Some ly)].

(** The claim that every call of [fit] without widgets, on an estimator
    with a map attached, goes through the four stages. *)
Definition fit_runs_four_stages (Xv : option matrix) (y sample_weight : option vector)
    (kwargs : list (string * scalar)) (w : world) : Prop :=
  is_Some (gpm (self w)) →
  ∃ evs, trace (fit Xv y sample_weight false kwargs w).2 = (trace w ++ evs)%list ∧
         four_stages y evs.

End Stages.

(** ** What a statement leaves alone *)

Section Frames.
Context `{Externals}.
Import EpistasisNonlinearRegression.

(** A statement keeps a part [view] of the world when that part is the
    same after every run, whether it returns or raises. *)
Definition keeps {A V} (view : world → V) (m : M A) : Prop :=
  ∀ w r w', m w = (r, w') → view w' = view w.

(** A statement preserves a property [J] of the world when [J] holds
    after every run that starts where [J] holds, whether the run returns
    or raises. *)
Definition preserves {A} (J : world → Prop) (m : M A) : Prop :=
  ∀ w r w', J w → m w = (r, w') → J w'.

(** The [Parameters] objects and the one the estimator holds. *)
Definition parameters_view (w : world) : loc * gmap loc instance :=
  (parameters (self w), parameters_store w).

(** The attributes of the estimator and the [Parameters] objects. *)
Definition estimator_view (w : world) : estimator * gmap loc instance :=
  (self w, parameters_store w).

(** Everything but the record of calls. *)
Definition state_view (w : world)
  : estimator * gmap loc instance * gmap loc linear_model :=
  (self w, parameters_store w, linear_store w).

(** The estimator holds, at the address [l], a [Parameters] object in one
    of the states the code puts it in, and the other addresses of the
    store hold what [ps] holds. *)
Definition well_kept (names : list string) (l : loc) (ps : gmap loc instance)
    (w : world) : Prop :=
  parameters (self w) = l ∧
  (∀ l', l' ≠ l → parameters_store w !! l' = ps !! l') ∧
  ∃ o, parameters_store w !! l = Some o ∧ reachable names o.

End Frames.

(** ** A small world to run the code in

    Integers stand for the floats, lists of rows for the matrices, and the
    solver and the linear sub-model are simple functions, so that the
    definitions above can be evaluated. *)

Module Example.
Import EpistasisNonlinearRegression.

Definition numeric : Numeric :=
  {| scalar := Z; zero := 0; one := 1; of_int := id; as_integer := Some;
     matrix := list (list Z);
     np_dot := λ Xv v,
       match Xv with
       | Some rows => Ok ((λ row, foldr Z.add 0 (zip_with Z.mul row v)) <$> rows)
       | None => Raise (TypeError "unsupported operand")
       end;
     inv_sqrt := id |}.

Definition package : @Package numeric :=
  {| gpmap := list Z; site := list nat; linear_core := Z |}.

#[local] Existing Instance numeric.
#[local] Existing Instance package.

Definition externals : @Externals numeric package :=
  {| linear_new := λ order _,
       Ok {| lm_X := None; lm_coef_ := None; lm_core := order |};
     linear_attach_gpm := λ m _, Ok m;
     linear_fit := λ m _ _,
       Ok {| lm_X := lm_X m; lm_coef_ := Some [7; 8]; lm_core := lm_core m |};
     linear_predict := λ m _, Ok ([1; 2], m);
     curve_fit := λ _ _ _ p0 _, Ok ((λ v, v + 10) <$> p0) |}.

#[local] Existing Instance externals.

(** [def f(x, A, B)], [def hill(x, n, K)] and [def g(y, A, B)] *)
Definition same_shape (x : option vector) (_ : list pyval) : res vector :=
  Ok (default [] x).
Definition f : pyfunction := {| signature := ["x"; "A"; "B"]; call := same_shape |}.
Definition hill : pyfunction := {| signature := ["x"; "n"; "K"]; call := same_shape |}.
Definition g : pyfunction := {| signature := ["y"; "A"; "B"]; call := same_shape |}.

(** The rest of the package attaches the map, the epistasis map and the
    model matrix to the estimator. *)
Definition identity : matrix := [[1; 0]; [0; 1]].
Definition attach (w : world) : world :=
  {| self := {| function := function (self w); reverse := reverse (self w);
                parameters := parameters (self w); order := order (self w);
                model_type := model_type (self w);
                fix_linear := fix_linear (self w);
                gpm := Some [0; 1];
                epistasis := Some {| sites := [[0%nat]; [1%nat]]; n := 2 |};
                X := Some (Some identity);
                Additive := Additive (self w); Linear := Linear (self w);
                coef_ := coef_ (self w) |};
     parameters_store := parameters_store w;
     linear_store := linear_store w; trace := trace w |}.

(** An estimator of the given order as [__init__] leaves it, and with
    the data attached. *)
Definition blank : world :=
  {| self := {| function := f; reverse := g; parameters := 0%nat; order := 1;
                model_type := "global"; fix_linear := true;
                gpm := None; epistasis := None; X := None;
                Additive := None; Linear := None; coef_ := None |};
     parameters_store := ∅; linear_store := ∅; trace := [] |}.
Definition fresh_estimator (order : Z) : world :=
  match __init__ f g order "global" true with
  | Ok w => w
  | Raise _ => blank
  end.
Definition ready (order : Z) : world := attach (fresh_estimator order).

(** The same after one fit. *)
Definition fitted (order : Z) : world :=
  (fit (Some identity) (Some [5; 6]) None false [] (ready order)).2.

(** The fitted estimator once the package has put a model matrix on
    every sub-model. *)
Definition fitted_with_X (order : Z) : world :=
  let w := fitted order in
  {| self := self w; parameters_store := parameters_store w;
     linear_store := linear_set_X (Some identity) <$> linear_store w;
     trace := trace w |}.

(** [Parameters(names)], when it returns. *)
Definition built (names : list string) : instance :=
  match Parameters.__init__ names with
  | Ok o => o
  | Raise _ => ∅
  end.

(** A stand-in for the scores. *)
Definition scoring : @Scoring numeric package externals :=
  {| pearson := λ _ _, Ok 1; square := λ r, r * r;
     linear_score := λ m _ _, Ok (1, m) |}.

Definition no_files : Parameters.filesystem :=
  {| Parameters.files := ∅; Parameters.writable := λ _, true |}.
Definition braces (d : list (string * pyval)) : res string :=
  Ok "{}".

End Example.

(** * Properties *)

(** ** Fallible results and loops *)

Section ResultLemmas.
Context {A B : Type}.

Lemma bind_Ok (m : res A) (k : A → res B) b :
  m ≫= k = Ok b ↔ ∃ a, m = Ok a ∧ k a = Ok b.
Proof. destruct m; simpl; split; [eauto | by intros (? & [= <-] & ?) | done | by intros (? & ? & ?)]. Qed.

Lemma from_option_Ok e (o : option A) a : from_option e o = Ok a ↔ o = Some a.
Proof. destruct o; simpl; split; congruence. Qed.

Lemma for_each_app {S} (body : S → A → res S) l1 l2 s :
  for_each body (l1 ++ l2) s = for_each body l1 s ≫= for_each body l2.
Proof. revert s. induction l1 as [|x l1 IH]; intros s; simpl; [done|]. destruct (body s x); simpl; auto. Qed.

Lemma mapM_Ok_fmap (f : A → res B) (g : A → B) l :
  Forall (λ x, f x = Ok (g x)) l → mapM f l = Ok (g <$> l).
Proof. induction 1 as [|x l Hx _ IH]; [done|]. cbn. rewrite Hx. cbn. by rewrite IH. Qed.

End ResultLemmas.

(** ** Attribute access *)

Section AttributeLemmas.
Context `{Numeric}.

Lemma getattr_stored (o : instance) name v :
  name ∉ (properties ++ object_slots)%list → o !! name = Some v → getattr o name = Ok v.
Proof. intros Hn Hv. unfold getattr. rewrite decide_False by done. by rewrite Hv. Qed.

Lemma bookkeeping_plain name :
  name ∈ "n" :: bookkeeping →
  (name ∉ (properties ++ object_slots)%list) ∧ (name ∉ (methods ++ object_members)%list).
Proof.
  unfold bookkeeping. rewrite !elem_of_cons, elem_of_nil.
  intros [->|[->|[->|[->|[]]]]]; split; compute_done.
Qed.
Lemma getattr_bookkeeping (o : instance) name :
  name ∈ "n" :: bookkeeping →
  getattr o name = from_option (AttributeError name) (o !! name).
Proof.
  intros [? ?]%bookkeeping_plain. unfold getattr.
  rewrite decide_False by done. destruct (o !! name); [done|].
  by rewrite decide_False.
Qed.

Lemma get_param_list_Ok (o : instance) l :
  get_param_list o = Ok l ↔ o !! "_param_list" = Some (PyStrList l).
Proof.
  unfold get_param_list. rewrite getattr_bookkeeping by compute_done.
  destruct (o !! "_param_list") as [[]|]; simpl; split; congruence.
Qed.

Lemma get_mapping_Ok (o : instance) m :
  get_mapping o = Ok m ↔ o !! "_mapping" = Some (PyNameIndex m).
Proof.
  unfold get_mapping. rewrite getattr_bookkeeping by compute_done.
  destruct (o !! "_mapping") as [[]|]; simpl; split; congruence.
Qed.

Lemma get_mapping__Ok (o : instance) m :
  get_mapping_ o = Ok m ↔ o !! "_mapping_" = Some (PyIndexName m).
Proof.
  unfold get_mapping_. rewrite getattr_bookkeeping by compute_done.
  destruct (o !! "_mapping_") as [[]|]; simpl; split; congruence.
Qed.

Lemma get_n_Ok (o : instance) z :
  get_n o = Ok z ↔ o !! "n" = Some (PyInt z).
Proof.
  unfold get_n. rewrite getattr_bookkeeping by compute_done.
  destruct (o !! "n") as [[]|]; simpl; split; congruence.
Qed.

Lemma setattr_Ok (o : instance) name v o' :
  setattr o name v = Ok o' ↔
  (name ∉ (properties ++ object_slots)%list) ∧ o' = <[name := v]> o.
Proof.
  unfold setattr. rewrite not_elem_of_app. split.
  - repeat case_decide; try done. by intros [= <-].
  - intros [[Hp Hs] ->]. rewrite !decide_False; [done..| |done].
    intros ->. apply Hs. compute_done.
Qed.

Lemma list_getitem_nat {A} (l : list A) (k : nat) x :
  l !! k = Some x → list_getitem l (Z.of_nat k) = Ok x.
Proof.
  intros Hk. pose proof (lookup_lt_Some _ _ _ Hk). unfold list_getitem.
  rewrite decide_True by lia. by rewrite Nat2Z.id, Hk.
Qed.

Lemma list_getitem_Ok {A} (l : list A) i x :
  0 ≤ i → list_getitem l i = Ok x ↔ l !! Z.to_nat i = Some x.
Proof.
  intros Hi. unfold list_getitem. case_decide.
  - apply from_option_Ok.
  - rewrite decide_False by lia. split; [done|].
    intros Hl%lookup_lt_Some. lia.
Qed.

End AttributeLemmas.

(** ** What the constructor of [Parameters] establishes *)

Section ConstructorLemmas.
Context `{Numeric}.

Lemma inv_upto_nil names :
  inv_upto names []
    (<["_mapping_" := PyIndexName ∅]>
       (<["_mapping" := PyNameIndex ∅]>
          (<["n" := PyInt (Z.of_nat (length names))]>
             ({["_param_list" := PyStrList names]} : instance)))).
Proof.
  split; simpl; try done.
  - exists ∅. split; [done|]. split; [|by intros ? ?%elem_of_nil].
    intros ? ?. by rewrite lookup_empty.
  - intros p. rewrite !lookup_insert, lookup_singleton. unfold bookkeeping.
    rewrite !elem_of_cons. repeat destruct (decide _); subst; auto 10.
    by intros [? ?].
Qed.

Lemma init_step_spec names done name (o o' : instance) :
  inv_upto names done o →
  names !! length done = Some name →
  Parameters.init_step o (Z.of_nat (length done)) = Ok o' →
  inv_upto names (done ++ [name]) o' ∧
  o' !! name = Some (PyInt 0) ∧
  (name ∉ bookkeeping) ∧
  (∀ p, p ≠ name → p ∉ bookkeeping → o' !! p = o !! p).
Proof.
  intros [Hl Hm_ (m & Hm & Hm1 & Hm2) Hn Hnames Hvals Hdom] Hname.
  unfold Parameters.init_step.
  rewrite (proj2 (get_param_list_Ok o names) Hl). cbn [mbind res_bind].
  rewrite (list_getitem_nat _ _ _ Hname). cbn [mbind res_bind].
  destruct (setattr o name (PyInt 0)) as [o1|] eqn:Hset; [|done].
  apply setattr_Ok in Hset as [Hplain ->]. cbn [mbind res_bind].
  destruct (get_param_list _) as [l1|] eqn:Hl1; [|done].
  apply get_param_list_Ok in Hl1. cbn [mbind res_bind].
  destruct (decide (name = "_param_list")) as [->|Hne1].
  { by rewrite lookup_insert_eq in Hl1. }
  rewrite lookup_insert_ne, Hl in Hl1 by done. injection Hl1 as <-.
  rewrite (list_getitem_nat _ _ _ Hname). cbn [mbind res_bind].
  destruct (get_mapping_ _) as [m1|] eqn:Hm1'; [|done].
  apply get_mapping__Ok in Hm1'. cbn [mbind res_bind].
  destruct (decide (name = "_mapping_")) as [->|Hne2].
  { by rewrite lookup_insert_eq in Hm1'. }
  rewrite lookup_insert_ne, Hm_ in Hm1' by done. injection Hm1' as <-.
  destruct (get_mapping _) as [m2|] eqn:Hm2'; [|done].
  apply get_mapping_Ok in Hm2'. cbn [mbind res_bind].
  destruct (decide (name = "_mapping")) as [->|Hne3].
  { by rewrite lookup_insert_ne, lookup_insert_eq in Hm2'. }
  rewrite !lookup_insert_ne, Hm in Hm2' by done. injection Hm2' as <-.
  rewrite (proj2 (get_param_list_Ok _ names)); cycle 1.
  { by rewrite !lookup_insert_ne. }
  cbn [mbind res_bind]. rewrite (list_getitem_nat _ _ _ Hname). cbn [mbind res_bind].
  intros [= <-].
  assert (Hbook : name ∉ bookkeeping).
  { unfold bookkeeping. rewrite !not_elem_of_cons. split_and!; [done..|].
    apply not_elem_of_nil. }
  split; [|split; [|split]].
  - split.
    + by rewrite !lookup_insert_ne.
    + rewrite lookup_insert_ne, lookup_insert_eq by done.
      by rewrite map_seqZ_snoc, Z.add_0_l.
    + eexists. split; [by rewrite lookup_insert_eq|]. split.
      * intros p k. rewrite lookup_insert. destruct (decide (name = p)) as [<-|Hp].
        -- intros [= <-]. split; [lia|]. rewrite Nat2Z.id.
           by rewrite lookup_app_r, Nat.sub_diag.
        -- intros [? Hk]%Hm1. split; [done|]. by apply lookup_app_l_Some.
      * intros p [Hp| ->%list_elem_of_singleton]%elem_of_app.
        -- destruct (Hm2 p Hp) as [k Hk]. rewrite lookup_insert.
           destruct (decide (name = p)); eauto.
        -- rewrite lookup_insert_eq. eauto.
    + rewrite !lookup_insert_ne by done.
      destruct (decide (name = "n")) as [->|Hnn].
      * rewrite lookup_insert_eq. rewrite decide_True; [done|].
        rewrite elem_of_app, list_elem_of_singleton. by right.
      * rewrite lookup_insert_ne, Hn by done. do 2 f_equal.
        destruct (decide ("n" ∈ done)) as [Hin|Hin].
        -- rewrite decide_True; [done|]. rewrite elem_of_app. by left.
        -- rewrite decide_False; [done|].
           rewrite elem_of_app, list_elem_of_singleton. by intros [?|?].
    + apply Forall_app. split; [done|]. apply Forall_singleton.
      apply not_elem_of_app in Hplain as [? ?]. by rewrite !not_elem_of_app.
    + apply Forall_app. split.
      * eapply Forall_impl; [exact Hvals|]. intros p Hp. simpl.
        rewrite !lookup_insert. repeat destruct (decide _); eauto.
      * apply Forall_singleton. rewrite !lookup_insert_ne, lookup_insert_eq by done. eauto.
    + intros p. rewrite !lookup_insert. rewrite app_assoc, elem_of_cons, !elem_of_app.
      rewrite list_elem_of_singleton.
      repeat destruct (decide _); subst;
        try (intros _; first [by auto | right; left; left; compute_done]).
      all: intros Hp%Hdom; rewrite elem_of_cons, elem_of_app in Hp; tauto.
  - rewrite !lookup_insert_ne by done. apply lookup_insert_eq.
  - done.
  - intros p Hp Hpb. unfold bookkeeping in Hpb.
    rewrite !not_elem_of_cons in Hpb. destruct Hpb as (? & ? & ? & _).
    by rewrite !lookup_insert_ne.
Qed.

Lemma init_loop names k (o0 o : instance) :
  (k ≤ length names)%nat →
  inv_upto names [] o0 →
  for_each Parameters.init_step (Z.of_nat <$> seq 0 k) o0 = Ok o →
  inv_upto names (take k names) o ∧
  Forall (λ p, o !! p = Some (PyInt 0)) (take k names).
Proof.
  intros Hk H0. revert o Hk. induction k as [|k IH]; intros o Hk.
  - simpl. intros [= <-]. by rewrite take_0.
  - rewrite seq_S, fmap_app, for_each_app. simpl.
    intros (o1 & Ho1 & Hstep)%bind_Ok.
    destruct (IH o1 ltac:(lia) Ho1) as [Hinv Hzero].
    destruct (lookup_lt_is_Some_2 names k ltac:(lia)) as [name Hname].
    assert (Hlen : length (take k names) = k) by (rewrite length_take; lia).
    destruct (Parameters.init_step o1 (Z.of_nat k)) as [o2|] eqn:Hs; [|done].
    simpl in Hstep. injection Hstep as ->.
    replace (Z.of_nat k) with (Z.of_nat (length (take k names))) in Hs
      by (by rewrite Hlen).
    destruct (init_step_spec names (take k names) name o1 o Hinv) as (Hi & Hz & Hb & Hframe);
      [by rewrite Hlen | done |].
    rewrite (take_S_r _ _ _ Hname). split; [done|].
    apply Forall_app. split; [|by apply Forall_singleton].
    pose proof (inv_names _ _ _ Hinv) as Hnames.
    rewrite Forall_forall in Hzero, Hnames |- *. intros p Hp.
    destruct (decide (p = name)) as [->|Hne]; [done|].
    rewrite Hframe; [by apply Hzero|done|].
    specialize (Hnames p Hp). rewrite !not_elem_of_app in Hnames. tauto.
Qed.

Lemma init_inv names (o : instance) :
  Parameters.__init__ names = Ok o →
  inv names o ∧ Forall (λ p, o !! p = Some (PyInt 0)) names.
Proof.
  unfold Parameters.__init__. cbv zeta.
  rewrite (proj2 (get_n_Ok _ (Z.of_nat (length names)))); cycle 1.
  { by rewrite lookup_insert_ne, lookup_insert_ne, lookup_insert_eq. }
  cbn [mbind res_bind]. unfold range. rewrite Nat2Z.id. intros Hloop.
  apply (init_loop names) in Hloop; [|done|apply inv_upto_nil].
  by rewrite firstn_all in Hloop.
Qed.

Lemma set_param_inv names (o o' : instance) size i v :
  inv names o → get_n o = Ok size → 0 ≤ i < size →
  Parameters._set_param o (Parameters.PIndex i) v = Ok o' →
  inv names o' ∧ ("n" ∉ names) ∧ size = Z.of_nat (length names) ∧
  ∃ name, names !! Z.to_nat i = Some name ∧ o' = <[name := v]> o.
Proof.
  intros [Hl Hm_ (m & Hm & Hm1 & Hm2) Hn Hnames Hvals Hdom] Hsize Hi.
  apply get_n_Ok in Hsize. rewrite Hn in Hsize. injection Hsize as Hsize.
  destruct (decide ("n" ∈ names)) as [|Hnn]; [lia|].
  unfold Parameters._set_param.
  rewrite (proj2 (get_mapping__Ok _ _) Hm_). cbn [mbind res_bind].
  rewrite lookup_map_seqZ_0 by lia.
  destruct (names !! Z.to_nat i) as [name|] eqn:Hname; [|done].
  cbn [from_option mbind res_bind]. intros [Hplain ->]%setattr_Ok.
  assert (Hin : name ∈ names) by (by eapply list_elem_of_lookup_2).
  pose proof (proj1 (Forall_forall _ _) Hnames name Hin) as Hres.
  rewrite !not_elem_of_app in Hres. destruct Hres as (_ & _ & Hbook).
  unfold bookkeeping in Hbook. rewrite !not_elem_of_cons in Hbook.
  destruct Hbook as (? & ? & ? & _).
  assert (name ≠ "n") by (by intros ->).
  split; [|eauto]. split.
  - by rewrite lookup_insert_ne.
  - by rewrite lookup_insert_ne.
  - exists m. by rewrite lookup_insert_ne.
  - rewrite lookup_insert_ne by done. by rewrite Hn, decide_False.
  - done.
  - eapply Forall_impl; [exact Hvals|]. intros p Hp. simpl.
    rewrite lookup_insert. destruct (decide _); eauto.
  - intros p. rewrite lookup_insert. destruct (decide (name = p)) as [<-|]; [|by auto].
    intros _. rewrite elem_of_cons, elem_of_app. auto.
Qed.

Lemma reachable_inv names (o : instance) : reachable names o → inv names o.
Proof.
  induction 1 as [o Hinit|o size i v o' _ IH Hsize Hi Hset].
  - by apply init_inv.
  - by eapply set_param_inv.
Qed.

End ConstructorLemmas.

(** ** The accessors on a well-formed object *)

Section Accessors.
Context `{Numeric}.

Lemma getattr_parameter names (o : instance) p :
  inv names o → p ∈ names → getattr o p = Ok (stored o p).
Proof.
  intros Hinv Hp.
  pose proof (proj1 (Forall_forall _ _) (inv_names _ _ _ Hinv) p Hp) as Hplain.
  pose proof (proj1 (Forall_forall _ _) (inv_values _ _ _ Hinv) p Hp) as [v Hv].
  rewrite !not_elem_of_app in Hplain. destruct Hplain as (? & ? & _).
  unfold stored. rewrite Hv. apply getattr_stored; [|done].
  by apply not_elem_of_app.
Qed.

Lemma keys_inv names (o : instance) : inv names o → Parameters.keys o = Ok names.
Proof. intros Hinv. apply get_param_list_Ok, Hinv. Qed.

Lemma values_inv names (o : instance) :
  inv names o → Parameters.values o = Ok (stored o <$> names).
Proof.
  intros Hinv. unfold Parameters.values.
  rewrite (proj2 (get_param_list_Ok _ _) (inv_param_list _ _ _ Hinv)).
  cbn [mbind res_bind]. apply mapM_Ok_fmap, Forall_forall.
  intros p Hp. by eapply getattr_parameter.
Qed.







End Accessors.

(** ** Running the estimator's statements *)

Import EpistasisNonlinearRegression.

Section Run.
Context `{Externals}.

Lemma run_bind {A B} (m : M A) (k : A → M B) w r w' :
  (m ≫= k) w = (r, w') →
  (∃ a w1, m w = (Ok a, w1) ∧ k a w1 = (r, w')) ∨
  (∃ e, m w = (Raise e, w') ∧ r = Raise e).
Proof.
  unfold mbind, M_bind, bind. destruct (m w) as [[a|e] w1].
  - left. eauto.
  - intros [= <- <-]. right. eauto.
Qed.

Lemma run_bind_Ok {A B} (m : M A) (k : A → M B) w b w' :
  (m ≫= k) w = (Ok b, w') → ∃ a w1, m w = (Ok a, w1) ∧ k a w1 = (Ok b, w').
Proof. intros [?|(e & _ & [=])]%run_bind. done. Qed.

Lemma run_lift {A} (r : res A) w a w' : lift r w = (Ok a, w') → r = Ok a ∧ w' = w.
Proof. by intros [= -> ->]. Qed.

Lemma run_attr {A} name (field : estimator → option A) w a w' :
  attr name field w = (Ok a, w') → field (self w) = Some a ∧ w' = w.
Proof.
  unfold attr. intros (s & w1 & [= <- <-] & [Hf ->]%run_lift)%run_bind_Ok.
  by apply from_option_Ok in Hf.
Qed.

Lemma run_the_parameters w o w' :
  the_parameters w = (Ok o, w') →
  parameters_store w !! parameters (self w) = Some o ∧ w' = w.
Proof. unfold the_parameters. intros [= Ho ->]. by apply from_option_Ok in Ho. Qed.

Lemma run_get_linear l w m w' :
  get_linear l w = (Ok m, w') → linear_store w !! l = Some m ∧ w' = w.
Proof. unfold get_linear. intros [= Ho ->]. by apply from_option_Ok in Ho. Qed.

Lemma run_external {A} ev (r : res A) w a w' :
  external ev r w = (Ok a, w') →
  r = Ok a ∧ w' = {| self := self w; parameters_store := parameters_store w;
                     linear_store := linear_store w; trace := trace w ++ [ev] |}.
Proof.
  unfold external. intros (? & w1 & [= <-] & [-> ->]%run_lift)%run_bind_Ok. done.
Qed.

Lemma run_call_linear {A} l ev (method : linear_model → res (A * linear_model)) w a w' :
  call_linear l ev method w = (Ok a, w') →
  ∃ m m', linear_store w !! l = Some m ∧ method m = Ok (a, m') ∧
    w' = {| self := self w; parameters_store := parameters_store w;
            linear_store := <[l := m']> (linear_store w); trace := trace w ++ [ev] |}.
Proof.
  unfold call_linear.
  intros (m & w1 & [Hm ->]%run_get_linear & Hrest)%run_bind_Ok.
  apply run_bind_Ok in Hrest as ([a' m'] & w2 & [Hcall ->]%run_external & Hrest).
  apply run_bind_Ok in Hrest as ([] & w3 & [= <-] & [= <- <-]).
  eauto 10.
Qed.

Lemma run_new_linear o mt w l w' :
  new_linear o mt w = (Ok l, w') →
  ∃ m, linear_new o mt = Ok m ∧ l = fresh (dom (linear_store w)) ∧
    w' = {| self := self w; parameters_store := parameters_store w;
            linear_store := <[l := m]> (linear_store w);
            trace := trace w ++ [EvNewLinear o mt] |}.
Proof.
  unfold new_linear.
  intros (m & w1 & [Hm ->]%run_external & [= <- <-])%run_bind_Ok. eauto.
Qed.

End Run.

(** ** A fit that returns, step by step *)

Section FitLemmas.
Context `{Externals}.

Lemma with_parameters_id o w :
  parameters_store w !! parameters (self w) = Some o → with_parameters o w = w.
Proof. intros Ho. destruct w. unfold with_parameters. simpl in *. by rewrite insert_id. Qed.

Lemma run_store_loop (popt : vector) l w w' o :
  parameters_store w !! parameters (self w) = Some o →
  for_ l (λ i,
    o ← the_parameters;
    v ← lift (list_getitem popt i);
    o' ← lift (invoke o "_set_param"
                 (Parameters._set_param o (Parameters.PIndex i) (PyNum v)));
    store_parameters o') w = (Ok (), w') →
  ∃ o', for_each (λ o i, v ← list_getitem popt i;
                   invoke o "_set_param"
                     (Parameters._set_param o (Parameters.PIndex i) (PyNum v))) l o = Ok o' ∧
        w' = with_parameters o' w.
Proof.
  revert w o. induction l as [|i l IH]; intros w o Ho; simpl.
  - intros [= <-]. exists o. by rewrite with_parameters_id.
  - intros ([] & w1 & Hbody & Hrest)%run_bind_Ok.
    apply run_bind_Ok in Hbody as (o1 & ? & [Ho1 ->]%run_the_parameters & Hbody).
    rewrite Ho in Ho1. injection Ho1 as <-.
    apply run_bind_Ok in Hbody as (v & ? & [Hv ->]%run_lift & Hbody).
    apply run_bind_Ok in Hbody as (o2 & ? & [Ho2 ->]%run_lift & [= <-]).
    rewrite Hv. cbn [mbind res_bind]. rewrite Ho2. cbn [mbind res_bind].
    apply IH with (o := o2) in Hrest as (o' & Hloop & ->); [|apply lookup_insert_eq].
    exists o'. split; [done|]. unfold with_parameters. simpl. by rewrite insert_insert_eq.
Qed.

Lemma run_set_self f w u w' :
  set_self f w = (Ok u, w') →
  w' = {| self := f (self w); parameters_store := parameters_store w;
          linear_store := linear_store w; trace := trace w |}.
Proof. by intros [= <-]. Qed.

Lemma run_fit_inner Xv y sw kw w w' :
  _fit_ Xv y sw kw w = (Ok (), w') →
  ∃ a m0 m1 x m2 o p0 popt size o',
    Additive (self w) = Some a ∧
    linear_store w !! a = Some m0 ∧ linear_fit m0 None None = Ok m1 ∧
    linear_predict m1 None = Ok (x, m2) ∧
    parameters_store w !! parameters (self w) = Some o ∧
    initial_guesses o kw = Ok p0 ∧
    curve_fit (function (self w)) x y p0 (inv_sqrt <$> sw) = Ok popt ∧
    get_n o = Ok size ∧ store_solution popt o size = Ok o' ∧
    parameters_store w' = <[parameters (self w) := o']> (parameters_store w) ∧
    parameters (self w') = parameters (self w) ∧
    function (self w') = function (self w) ∧
    Additive (self w') = Some a ∧
    if decide (1 < order (self w)) then
      ∃ vals ly l ml lX ml',
        Parameters.values o' = Ok vals ∧
        call (reverse (self w)) y vals = Ok ly ∧
        Linear (self w) = Some l ∧
        <[a := m2]> (linear_store w) !! l = Some ml ∧
        lm_X ml = Some lX ∧
        linear_fit ml lX (Some ly) = Ok ml' ∧
        Linear (self w') = Some l ∧
        coef_ (self w') = lm_coef_ ml' ∧
        linear_store w' !! l = Some ml' ∧
        trace w' = (trace w ++
          [EvLinearFit a None None; EvLinearPredict a None;
           EvCurveFit TheFunction x y p0 (inv_sqrt <$> sw);
           EvCall TheReverse y vals; EvLinearFit l lX (Some ly)])%list
    else
      Linear (self w') = Some a ∧
      coef_ (self w') = lm_coef_ m2 ∧
      linear_store w' !! a = Some m2 ∧
      trace w' = (trace w ++
        [EvLinearFit a None None; EvLinearPredict a None;
         EvCurveFit TheFunction x y p0 (inv_sqrt <$> sw)])%list.
Proof.
  unfold _fit_. intros Hrun.
  apply run_bind_Ok in Hrun as (a & ? & [Ha ->]%run_attr & Hrun).
  apply run_bind_Ok in Hrun as ([] & w1 & Hfit & Hrun).
  apply run_call_linear in Hfit as (m0 & m1' & Hm0 & Hfit & ->).
  apply bind_Ok in Hfit as (m1 & Hfit & [= <-]).
  apply run_bind_Ok in Hrun as (a' & ? & [Ha' ->]%run_attr & Hrun).
  simpl in Ha'. rewrite Ha in Ha'. injection Ha' as <-.
  apply run_bind_Ok in Hrun as (x & w2 & Hpred & Hrun).
  apply run_call_linear in Hpred as (m1' & m2 & Hm1 & Hpred & ->).
  simpl in Hm1. rewrite lookup_insert_eq in Hm1. injection Hm1 as <-.
  apply run_bind_Ok in Hrun as (o & ? & [Ho ->]%run_the_parameters & Hrun).
  simpl in Ho.
  apply run_bind_Ok in Hrun as (size & ? & [Hsize ->]%run_lift & Hrun).
  apply run_bind_Ok in Hrun as (g0 & ? & [Hg0 ->]%run_lift & Hrun).
  apply run_bind_Ok in Hrun as (o1 & ? & [Ho1 ->]%run_the_parameters & Hrun).
  simpl in Ho1. rewrite Ho in Ho1. injection Ho1 as <-.
  apply run_bind_Ok in Hrun as (p0 & ? & [Hp0 ->]%run_lift & Hrun).
  apply run_bind_Ok in Hrun as (s & ? & [= <- <-] & Hrun).
  apply run_bind_Ok in Hrun as (popt & w3 & [Hpopt ->]%run_external & Hrun).
  apply run_bind_Ok in Hrun as (o1 & ? & [Ho1 ->]%run_the_parameters & Hrun).
  simpl in Ho1. rewrite Ho in Ho1. injection Ho1 as <-.
  apply run_bind_Ok in Hrun as (size' & ? & [Hsize' ->]%run_lift & Hrun).
  rewrite Hsize in Hsize'. injection Hsize' as <-.
  apply run_bind_Ok in Hrun as ([] & w4 & Hloop & Hrun).
  eapply run_store_loop in Hloop as (o' & Hloop & ->); [|exact Ho].
  apply run_bind_Ok in Hrun as (s & ? & [= <- <-] & Hrun).
  apply run_bind_Ok in Hrun as ([] & w5 & Hbranch & Hrun).
  apply run_bind_Ok in Hrun as (l & ? & [Hl ->]%run_attr & Hrun).
  apply run_bind_Ok in Hrun as (ml & ? & [Hml ->]%run_get_linear & Hrun).
  apply run_bind_Ok in Hrun as (c & ? & [Hc ->]%run_lift & Hrun).
  apply from_option_Ok in Hc. apply run_set_self in Hrun as ->.
  exists a, m0, m1, x, m2, o, p0, popt, size, o'.
  assert (Hguess : initial_guesses o kw = Ok p0).
  { unfold initial_guesses. rewrite Hsize. cbn [mbind res_bind].
    rewrite Hg0. cbn [mbind res_bind]. exact Hp0. }
  simpl in Hbranch |- *.
  destruct (decide (1 < order (self w))) as [Hord|Hord].
  - apply run_bind_Ok in Hbranch as (o1 & ? & [Ho1 ->]%run_the_parameters & Hbranch).
    simpl in Ho1. rewrite lookup_insert_eq in Ho1. injection Ho1 as <-.
    apply run_bind_Ok in Hbranch as (vals & ? & [Hvals ->]%run_lift & Hbranch).
    apply run_bind_Ok in Hbranch as (ly & w6 & [Hly ->]%run_external & Hbranch).
    apply run_bind_Ok in Hbranch as (l' & ? & [Hl' ->]%run_attr & Hbranch).
    apply run_bind_Ok in Hbranch as (ml0 & ? & [Hml0 ->]%run_get_linear & Hbranch).
    apply run_bind_Ok in Hbranch as (lX & ? & [HlX ->]%run_lift & Hbranch).
    apply from_option_Ok in HlX.
    apply run_call_linear in Hbranch as (ml0' & ml' & Hml0' & Hlfit & ->).
    simpl in *. rewrite Hml0 in Hml0'. injection Hml0' as <-.
    apply bind_Ok in Hlfit as (ml'' & Hlfit & [= <-]).
    rewrite Hl' in Hl. injection Hl as <-.
    rewrite lookup_insert_eq in Hml. injection Hml as <-.
    split_and!; try done.
    exists vals, ly, l', ml0, lX, ml''. split_and!; try done.
    + by rewrite insert_insert_eq in Hml0.
    + by rewrite lookup_insert_eq.
    + by rewrite <- !app_assoc.
  - apply run_bind_Ok in Hbranch as (a' & ? & [Ha' ->]%run_attr & Hbranch).
    simpl in Ha'. rewrite Ha in Ha'. injection Ha' as <-.
    apply run_set_self in Hbranch as ->. simpl in *.
    injection Hl as <-. rewrite lookup_insert_eq in Hml. injection Hml as <-.
    split_and!; try done.
    + by rewrite lookup_insert_eq.
    + by rewrite <- !app_assoc.
Qed.

Lemma run_store_linear l m w u w' :
  store_linear l m w = (Ok u, w') →
  w' = {| self := self w; parameters_store := parameters_store w;
          linear_store := <[l := m]> (linear_store w); trace := trace w |}.
Proof. by intros [= <-]. Qed.

Lemma fit_spec Xv y sw kw w w' r :
  fit Xv y sw false kw w = (Ok r, w') →
  ∃ g a l ma0 ma1 ma2 ma3 ml0 x o p0 popt size o',
    let mt := model_type (self w) in
    let sigma := inv_sqrt <$> sw in
    r = Self ∧
    gpm (self w) = Some g ∧
    a ≠ l ∧
    linear_new 1 mt = Ok ma0 ∧ linear_attach_gpm ma0 g = Ok ma1 ∧
    linear_new (order (self w)) mt = Ok ml0 ∧
    linear_fit ma1 None None = Ok ma2 ∧
    linear_predict ma2 None = Ok (x, ma3) ∧
    parameters_store w !! parameters (self w) = Some o ∧
    initial_guesses o kw = Ok p0 ∧
    curve_fit (function (self w)) x y p0 sigma = Ok popt ∧
    get_n o = Ok size ∧ store_solution popt o size = Ok o' ∧
    parameters_store w' = <[parameters (self w) := o']> (parameters_store w) ∧
    parameters (self w') = parameters (self w) ∧
    function (self w') = function (self w) ∧
    Additive (self w') = Some a ∧
    if decide (1 < order (self w)) then
      ∃ vals ly ml',
        Parameters.values o' = Ok vals ∧
        call (reverse (self w)) y vals = Ok ly ∧
        linear_fit (linear_set_X Xv ml0) Xv (Some ly) = Ok ml' ∧
        Linear (self w') = Some l ∧
        coef_ (self w') = lm_coef_ ml' ∧
        linear_store w' !! l = Some ml' ∧
        trace w' = (trace w ++
          [EvNewLinear 1 mt; EvAttachGpm a; EvNewLinear (order (self w)) mt;
           EvLinearFit a None None; EvLinearPredict a None;
           EvCurveFit TheFunction x y p0 sigma;
           EvCall TheReverse y vals; EvLinearFit l Xv (Some ly)])%list
    else
      Linear (self w') = Some a ∧
      coef_ (self w') = lm_coef_ ma3 ∧
      linear_store w' !! a = Some ma3 ∧
      trace w' = (trace w ++
        [EvNewLinear 1 mt; EvAttachGpm a; EvNewLinear (order (self w)) mt;
         EvLinearFit a None None; EvLinearPredict a None;
         EvCurveFit TheFunction x y p0 sigma])%list.
Proof.
  unfold fit. intros Hrun.
  apply run_bind_Ok in Hrun as (s & ? & [= <- <-] & Hrun).
  destruct (gpm (self w)) as [g|] eqn:Hg; [|done].
  apply run_bind_Ok in Hrun as (a & w1 & (ma0 & Hma0 & Ha & ->)%run_new_linear & Hrun).
  apply run_bind_Ok in Hrun as ([] & ? & ->%run_set_self & Hrun).
  apply run_bind_Ok in Hrun as ([] & w2 & Hattach & Hrun).
  apply run_call_linear in Hattach as (ma0' & ma1' & Hma0' & Hattach & ->).
  simpl in Hma0'. rewrite lookup_insert_eq in Hma0'. injection Hma0' as <-.
  apply bind_Ok in Hattach as (ma1 & Hattach & [= <-]).
  apply run_bind_Ok in Hrun as (l & w3 & (ml0 & Hml0 & Hl & ->)%run_new_linear & Hrun).
  apply run_bind_Ok in Hrun as ([] & ? & ->%run_set_self & Hrun).
  apply run_bind_Ok in Hrun as (ml0' & ? & [Hml0' ->]%run_get_linear & Hrun).
  simpl in Hml0'. rewrite lookup_insert_eq in Hml0'. injection Hml0' as <-.
  apply run_bind_Ok in Hrun as ([] & ? & ->%run_store_linear & Hrun).
  apply run_bind_Ok in Hrun as (ep & ? & [Hep ->]%run_attr & Hrun).
  apply run_bind_Ok in Hrun as ([] & ? & ->%run_set_self & Hrun).
  apply run_bind_Ok in Hrun as ([] & w4 & Hinner & [= <- <-]).
  simpl in *.
  assert (Hal : a ≠ l).
  { intros Heq. pose proof (is_fresh (dom (<[a:=ma1]> (<[a:=ma0]> (linear_store w))))) as Hfr.
    rewrite <- Hl, <- Heq in Hfr. apply Hfr. rewrite dom_insert. set_solver. }
  apply run_fit_inner in Hinner
    as (a' & m0 & m1 & x & m2 & o & p0 & popt & size & o' & Ha' & Hm0 & Hfit & Hpred &
        Ho & Hguess & Hcurve & Hsize & Hstore & Hps & Hpar & Hfun & Hadd & Hbranch).
  simpl in *. injection Ha' as <-.
  assert (Hla : l ≠ a) by (by intros ->).
  rewrite lookup_insert_ne, lookup_insert_ne, lookup_insert_eq in Hm0 by done.
  injection Hm0 as <-.
  exists g, a, l, ma0, ma1, m1, m2, ml0, x, o, p0, popt, size, o'.
  split_and!; try done.
  destruct (decide (1 < order (self w))).
  - destruct Hbranch as (vals & ly & l' & ml & lX & ml' & Hvals & Hly & Hl' & Hml & HlX &
                         Hlfit & HL & Hcoef & Hst & Htrace).
    injection Hl' as <-.
    rewrite lookup_insert_ne, lookup_insert_eq in Hml by done.
    injection Hml as <-. simpl in HlX. injection HlX as <-.
    exists vals, ly, ml'. split_and!; try done.
    by rewrite Htrace, <- !app_assoc.
  - destruct Hbranch as (HL & Hcoef & Hst & Htrace). split_and!; try done.
    by rewrite Htrace, <- !app_assoc.
Qed.

End FitLemmas.

(** ** The [Parameters] container *)

Section Container.
Context `{Numeric}.

Lemma invoke_Ok {A} (o : instance) name (body : res A) a :
  invoke o name body = Ok a ↔ o !! name = None ∧ body = Ok a.
Proof.
  unfold invoke. destruct (o !! name); split; try done; by intros [? ?].
Qed.

(** What [Parameters(names)] builds when it returns: the keys are the
    names in order, every parameter is the integer 0, and [n] is the
    number of names unless one of them is [n] itself. *)
Lemma parameters_init_spec names (o : instance) :
  Parameters.__init__ names = Ok o →
  Parameters.keys o = Ok names ∧
  Parameters.values o = Ok (replicate (length names) (PyInt 0)) ∧
  get_n o = Ok (if decide ("n" ∈ names) then 0 else Z.of_nat (length names)).
Proof.
  intros [Hinv Hzero]%init_inv. split_and!.
  - by apply keys_inv.
  - rewrite (values_inv names) by done. f_equal.
    clear Hinv. induction Hzero as [|p names Hp _ IH]; [done|].
    rewrite fmap_cons. cbn [length replicate].
    f_equal; [unfold stored; by rewrite Hp | exact IH].
  - apply get_n_Ok, Hinv.
Qed.



(** [to_json] on a writable file name: the file is created or emptied,
    and [json.dump] refuses its first argument, the file. *)
Lemma to_json_raises encode (o : instance) filename fs d :
  Parameters.writable fs filename = true →
  Parameters.__call__ o = Ok d →
  Parameters.to_json encode o filename fs =
    (Raise (TypeError "Object of type TextIOWrapper is not JSON serializable"),
     {| Parameters.files := <[filename := EmptyString]> (Parameters.files fs);
        Parameters.writable := Parameters.writable fs |}).
Proof.
  intros Hw Hd. unfold Parameters.to_json, Parameters.open_w.
  by rewrite Hw, Hd.
Qed.

End Container.

(** ** Storing the solver's values *)

Section Solution.
Context `{Numeric}.

Lemma store_prefix names (popt : vector) (o ok : instance) size k :
  reachable names o → NoDup names → get_n o = Ok size → (k ≤ Z.to_nat size)%nat →
  for_each (λ o i, v ← list_getitem popt i;
                   invoke o "_set_param"
                     (Parameters._set_param o (Parameters.PIndex i) (PyNum v)))
           (Z.of_nat <$> seq 0 k) o = Ok ok →
  reachable names ok ∧ get_n ok = Ok size ∧
  ∀ i, (i < k)%nat → ∃ name v,
    names !! i = Some name ∧ popt !! i = Some v ∧ ok !! name = Some (PyNum v).
Proof.
  intros Hreach Hnd Hsize. revert ok. induction k as [|k IH]; intros ok Hk.
  - simpl. intros [= <-]. split_and!; [done..|]. intros i Hi. lia.
  - rewrite seq_S, fmap_app, for_each_app. simpl.
    intros (o1 & Ho1 & Hstep)%bind_Ok.
    destruct (IH o1 ltac:(lia) Ho1) as (Hr1 & Hn1 & Hvals).
    apply bind_Ok in Hstep as (o2 & Hstep & [= <-]).
    apply bind_Ok in Hstep as (v & Hv & [_ Hset]%invoke_Ok).
    apply list_getitem_Ok in Hv; [|lia]. rewrite Nat2Z.id in Hv.
    destruct (set_param_inv names o1 o2 size (Z.of_nat k) (PyNum v))
      as (Hinv2 & Hnn & _ & name & Hname & ->);
      [by apply reachable_inv | done | lia | done |].
    rewrite Nat2Z.id in Hname.
    assert (name ≠ "n").
    { intros ->. apply Hnn. by eapply list_elem_of_lookup_2. }
    split_and!.
    + eapply reach_set; [exact Hr1 | exact Hn1 | | exact Hset]. lia.
    + apply get_n_Ok. rewrite lookup_insert_ne by done. by apply get_n_Ok.
    + intros i Hi. destruct (decide (i = k)) as [->|Hne].
      * exists name, v. by rewrite lookup_insert_eq.
      * destruct (Hvals i ltac:(lia)) as (p & u & Hp & Hu & Hpu).
        exists p, u. split_and!; [done..|].
        rewrite lookup_insert_ne; [done|]. intros <-.
        apply Hne. symmetry. by eapply NoDup_lookup.
Qed.

Lemma store_solution_spec names (popt : vector) (o o' : instance) size :
  reachable names o → NoDup names → get_n o = Ok size →
  store_solution popt o size = Ok o' →
  reachable names o' ∧ get_n o' = Ok size ∧
  ∀ i, 0 ≤ i < size → ∃ v,
    list_getitem popt i = Ok v ∧
    (vs ← Parameters.values o'; list_getitem vs i) = Ok (PyNum v).
Proof.
  intros Hreach Hnd Hsize Hstore. unfold store_solution, range in Hstore.
  destruct (store_prefix names popt o o' size (Z.to_nat size))
    as (Hr & Hn & Hvals); [done..|lia|done|].
  split_and!; [done..|]. intros i Hi.
  destruct (Hvals (Z.to_nat i) ltac:(lia)) as (name & v & Hname & Hv & Hov).
  exists v. split; [by apply list_getitem_Ok; [lia|]|].
  rewrite (values_inv names) by (by apply reachable_inv).
  cbn [mbind res_bind]. apply list_getitem_Ok; [lia|].
  rewrite list_lookup_fmap, Hname. simpl. unfold stored. by rewrite Hov.
Qed.

End Solution.

(** ** The estimator *)

Section EstimatorProperties.
Context `{Externals}.



(** The constructor leaves a [Parameters] object built from the names
    after the first. *)
Lemma init_reachable function reverse order model_type fix_linear w :
  __init__ function reverse order model_type fix_linear = Ok w →
  ∃ o, parameters_store w !! parameters (self w) = Some o ∧
       reachable (drop 1 (signature function)) o.
Proof.
  unfold __init__. intros (first & _ & Hrest)%bind_Ok.
  case_decide; [done|].
  apply bind_Ok in Hrest as (o & Ho & [= <-]). exists o.
  cbn [self parameters parameters_store].
  rewrite lookup_singleton_eq. split; [done|]. by apply reach_init.
Qed.

(** C3: on an estimator without a genotype-phenotype map, [fit] raises
    the exception that says so and leaves everything as it was: no
    sub-model is built and no call is made. *)
Theorem fit_without_gpm_raises Xv y sample_weight use_widgets kwargs w :
  gpm (self w) = None →
  fit Xv y sample_weight use_widgets kwargs w = (Raise (Exception no_gpm_message), w).
Proof.
  intros Hg. unfold fit, mbind, M_bind, bind, get_self. by rewrite Hg.
Qed.

(** C10: on an estimator without a model matrix [X], [hypothesis] raises
    the exception that says so and leaves everything as it was; it
    returns a value, or calls anything, only when [X] is attached. *)
Theorem hypothesis_requires_X Xv thetas w r w' :
  hypothesis Xv thetas w = (r, w') →
  (X (self w) = None → r = Raise (Exception no_X_message) ∧ w' = w) ∧
  ((∃ y, r = Ok y) ∨ trace w' ≠ trace w → is_Some (X (self w))).
Proof.
  unfold hypothesis, mbind, M_bind, bind, get_self.
  destruct (X (self w)) as [xv|] eqn:HX.
  - intros _. split; [done|]. eauto.
  - intros [= <- <-]. split; [done|]. by intros [[y [=]]|[]].
Qed.

End EstimatorProperties.

Section FitProperties.
Context `{Externals}.


(** C1, amended: a call of [fit] without widgets that returns has made
    exactly these calls, in this order, once each: the two sub-models are
    built and the map attached, the additive model (order 1) is fitted and
    gives its prediction [x], and the solver is called once on the user's
    function with [x] as the independent variable.  When the order of the
    estimator is above 1, the inverse function is then applied to [y] with
    the values now stored in the parameters, and the high-order model is
    fitted on its result with the [X] given to [fit].  When the order is 1
    or less, nothing else is called and the additive model is used as the
    linear model. *)
Theorem fit_is_one_pass Xv y sample_weight kwargs w r w' :
  fit Xv y sample_weight false kwargs w = (Ok r, w') →
  ∃ g a l ma0 ma1 ma2 ma3 ml0 x o p0 popt o',
    let mt := model_type (self w) in
    let sigma := inv_sqrt <$> sample_weight in
    gpm (self w) = Some g ∧ a ≠ l ∧
    (* the two sub-models *)
    linear_new 1 mt = Ok ma0 ∧ linear_attach_gpm ma0 g = Ok ma1 ∧
    linear_new (order (self w)) mt = Ok ml0 ∧
    Additive (self w') = Some a ∧
    (* stage 1: the additive fit and its prediction *)
    linear_fit ma1 None None = Ok ma2 ∧
    linear_predict ma2 None = Ok (x, ma3) ∧
    (* stage 2: the solver, once *)
    parameters_store w !! parameters (self w) = Some o ∧
    initial_guesses o kwargs = Ok p0 ∧
    curve_fit (function (self w)) x y p0 sigma = Ok popt ∧
    parameters_store w' !! parameters (self w') = Some o' ∧
    if decide (1 < order (self w)) then
      (* stages 3 and 4 *)
      ∃ vals ly ml' evs,
        Parameters.values o' = Ok vals ∧
        call (reverse (self w)) y vals = Ok ly ∧
        linear_fit (linear_set_X Xv ml0) Xv (Some ly) = Ok ml' ∧
        Linear (self w') = Some l ∧
        linear_store w' !! l = Some ml' ∧
        evs = [EvNewLinear 1 mt; EvAttachGpm a; EvNewLinear (order (self w)) mt;
               EvLinearFit a None None; EvLinearPredict a None;
               EvCurveFit TheFunction x y p0 sigma;
               EvCall TheReverse y vals; EvLinearFit l Xv (Some ly)] ∧
        trace w' = (trace w ++ evs)%list ∧
        four_stages y evs
    else
      Linear (self w') = Some a ∧
      trace w' = (trace w ++
        [EvNewLinear 1 mt; EvAttachGpm a; EvNewLinear (order (self w)) mt;
         EvLinearFit a None None; EvLinearPredict a None;
         EvCurveFit TheFunction x y p0 sigma])%list.
Proof.
  intros (g & a & l & ma0 & ma1 & ma2 & ma3 & ml0 & x & o & p0 & popt & size & o' &
          _ & Hg & Hal & Hma0 & Hma1 & Hml0 & Hfit & Hpred & Ho & Hp0 & Hcurve & _ &
          _ & Hps & Hpar & _ & Hadd & Hbranch)%fit_spec.
  exists g, a, l, ma0, ma1, ma2, ma3, ml0, x, o, p0, popt, o'. cbv zeta in *.
  split_and!; try done.
  { by rewrite Hps, Hpar, lookup_insert_eq. }
  destruct (decide (1 < order (self w))).
  - destruct Hbranch as (vals & ly & ml' & Hvals & Hly & Hlfit & HL & _ & Hst & Htrace).
    eexists vals, ly, ml', _. split_and!; try done.
    unfold four_stages. eauto 20.
  - by destruct Hbranch as (HL & _ & _ & Htrace).
Qed.

(** C5: after a call of [fit] without widgets that returns, the estimator
    holds the [Parameters] object it held before, no other [Parameters]
    object exists, and for every index below [n] the value at that index
    is the one the solver returned at that index.  The object is one built
    from pairwise distinct names, as the argument names of a function
    are; the solver is the one call of [curve_fit] that the fit makes. *)
Theorem fit_stores_solution_in_place names Xv y sample_weight kwargs w r w' o :
  parameters_store w !! parameters (self w) = Some o →
  reachable names o → NoDup names →
  fit Xv y sample_weight false kwargs w = (Ok r, w') →
  parameters (self w') = parameters (self w) ∧
  dom (parameters_store w') = dom (parameters_store w) ∧
  ∃ o' x p0 popt size before after,
    parameters_store w' !! parameters (self w') = Some o' ∧
    reachable names o' ∧
    trace w' = (trace w ++ before ++
                [EvCurveFit TheFunction x y p0 (inv_sqrt <$> sample_weight)]
                ++ after)%list ∧
    Forall (λ ev, ∀ f x y p0 sigma, ev ≠ EvCurveFit f x y p0 sigma)
           (before ++ after)%list ∧
    curve_fit (function (self w)) x y p0 (inv_sqrt <$> sample_weight) = Ok popt ∧
    get_n o' = Ok size ∧
    ∀ i, 0 ≤ i < size → ∃ v,
      list_getitem popt i = Ok v ∧
      (vs ← Parameters.values o'; list_getitem vs i) = Ok (PyNum v).
Proof.
  intros Ho Hreach Hnd
    (g & a & l & ma0 & ma1 & ma2 & ma3 & ml0 & x & o1 & p0 & popt & size & o' &
     _ & Hg & Hal & _ & _ & _ & _ & Hpred & Ho1 & _ & Hcurve & Hsize & Hstore & Hps &
     Hpar & _ & Hadd & Hbranch)%fit_spec.
  cbv zeta in *. rewrite Ho in Ho1. injection Ho1 as <-.
  destruct (store_solution_spec names popt o o' size) as (Hr' & Hn' & Hvals); [done..|].
  split_and!; [done| |].
  { rewrite Hps. apply dom_insert_lookup_L. eauto. }
  exists o', x, p0, popt, size.
  destruct (decide (1 < order (self w))).
  - destruct Hbranch as (vals & ly & ml' & _ & _ & _ & _ & _ & _ & Htrace).
    eexists [_; _; _; _; _], [_; _]. split_and!; try done.
    + by rewrite Hps, Hpar, lookup_insert_eq.
    + rewrite Htrace. reflexivity.
    + repeat constructor; by intros.
  - destruct Hbranch as (_ & _ & _ & Htrace).
    eexists [_; _; _; _; _], []. split_and!; try done.
    + by rewrite Hps, Hpar, lookup_insert_eq.
    + rewrite Htrace. reflexivity.
    + repeat constructor; by intros.
Qed.

End FitProperties.

Section ThetasProperties.
Context `{Externals}.





Lemma hypothesis_unfold (o : instance) i ep xv Xv th w :
  parameters_store w !! parameters (self w) = Some o →
  get_n o = Ok i → X (self w) = Some xv → epistasis (self w) = Some ep →
  hypothesis Xv (Some th) w
  = function_of_pieces Xv (slice th 0 i) (slice th i (i + n ep)) w.
Proof.
  intros Ho Hi%get_n_Ok HX Hep.
  unfold hypothesis, function_of_pieces, attr, the_parameters, mbind, M_bind, bind,
    get_self, lift.
  rewrite HX, Ho. cbn [from_option].
  rewrite getattr_bookkeeping by compute_done. rewrite Hi, Hep. done.
Qed.


End ThetasProperties.

(** ** More on the [Parameters] container *)

Section ContainerMore.
Context `{Numeric}.

Lemma init_step_progress names done name (o : instance) :
  inv_upto names done o →
  names !! length done = Some name →
  name ∉ (properties ++ object_slots ++ bookkeeping)%list →
  ∃ o', Parameters.init_step o (Z.of_nat (length done)) = Ok o'.
Proof.
  intros [Hl Hm_ (m & Hm & _) _ _ _ _] Hname Hplain.
  rewrite !not_elem_of_app in Hplain. destruct Hplain as (Hp & Hs & Hb).
  unfold bookkeeping in Hb. rewrite !not_elem_of_cons in Hb.
  destruct Hb as (? & ? & ? & _).
  unfold Parameters.init_step.
  rewrite (proj2 (get_param_list_Ok o names) Hl). cbn [mbind res_bind].
  rewrite (list_getitem_nat _ _ _ Hname). cbn [mbind res_bind].
  rewrite (proj2 (setattr_Ok o name (PyInt 0) _)
             (conj (proj2 (not_elem_of_app _ _ _) (conj Hp Hs)) eq_refl)).
  cbn [mbind res_bind].
  rewrite (proj2 (get_param_list_Ok _ names)) by (by rewrite lookup_insert_ne).
  cbn [mbind res_bind]. rewrite (list_getitem_nat _ _ _ Hname). cbn [mbind res_bind].
  rewrite (proj2 (get_mapping__Ok _ (map_seqZ 0 done))) by (by rewrite lookup_insert_ne).
  cbn [mbind res_bind].
  rewrite (proj2 (get_mapping_Ok _ m)) by (by rewrite !lookup_insert_ne).
  cbn [mbind res_bind].
  rewrite (proj2 (get_param_list_Ok _ names)) by (by rewrite !lookup_insert_ne).
  cbn [mbind res_bind]. rewrite (list_getitem_nat _ _ _ Hname). cbn [mbind res_bind].
  eauto.
Qed.

Lemma init_loop_progress names k (o0 : instance) :
  (k ≤ length names)%nat →
  inv_upto names [] o0 →
  Forall (λ p, p ∉ (properties ++ object_slots ++ bookkeeping)%list) (take k names) →
  ∃ o, for_each Parameters.init_step (Z.of_nat <$> seq 0 k) o0 = Ok o.
Proof.
  intros Hk H0. induction k as [|k IH]; intros Hplain.
  - simpl. eauto.
  - destruct (lookup_lt_is_Some_2 names k ltac:(lia)) as [name Hname].
    rewrite (take_S_r _ _ _ Hname) in Hplain.
    apply Forall_app in Hplain as [Hpre Hlast]. rewrite Forall_singleton in Hlast.
    destruct (IH ltac:(lia) Hpre) as [o1 Ho1].
    destruct (init_loop names k o0 o1 ltac:(lia) H0 Ho1) as [Hinv _].
    assert (Hlen : length (take k names) = k) by (rewrite length_take; lia).
    destruct (init_step_progress names (take k names) name o1 Hinv) as [o2 Ho2];
      [by rewrite Hlen | exact Hlast |].
    rewrite Hlen in Ho2.
    exists o2. rewrite seq_S, fmap_app, for_each_app, Ho1. simpl.
    by rewrite Ho2.
Qed.

Lemma init_progress names :
  Forall (λ p, p ∉ (properties ++ object_slots ++ bookkeeping)%list) names →
  ∃ o, Parameters.__init__ names = Ok o.
Proof.
  intros Hplain. unfold Parameters.__init__. cbv zeta.
  rewrite (proj2 (get_n_Ok _ (Z.of_nat (length names)))); cycle 1.
  { by rewrite lookup_insert_ne, lookup_insert_ne, lookup_insert_eq. }
  cbn [mbind res_bind]. unfold range. rewrite Nat2Z.id.
  apply (init_loop_progress names); [done | apply inv_upto_nil |].
  by rewrite firstn_all.
Qed.

(** X1: [Parameters(names)] returns exactly when no name is one of the
    two properties ([keys], [values]), one of the slots of [object] that
    refuse assignment, or one of the three attributes the constructor
    reads back in its loop ([_param_list], [_mapping], [_mapping_]);
    any other list is accepted, with or without repeated names. *)
Theorem parameters_init_accepts names :
  (∃ o, Parameters.__init__ names = Ok o) ↔
  Forall (λ p, p ∉ (properties ++ object_slots ++ bookkeeping)%list) names.
Proof.
  split.
  - intros [o [Hinv _]%init_inv]. apply Hinv.
  - apply init_progress.
Qed.

(** X2: for names that avoid the container's own attributes, [n]
    included, [Parameters(names)] returns an object whose [keys] are the
    names in their order, whose [n] is their number and whose values are
    all 0. *)
Theorem init_of_plain_names names :
  Forall (λ p, p ∉ (properties ++ object_slots ++ bookkeeping)%list) names →
  "n" ∉ names →
  ∃ o, Parameters.__init__ names = Ok o ∧
       Parameters.keys o = Ok names ∧
       Parameters.values o = Ok (replicate (length names) (PyInt 0)) ∧
       get_n o = Ok (Z.of_nat (length names)).
Proof.
  intros [o Ho]%init_progress Hn. exists o.
  destruct (parameters_init_spec names o Ho) as (Hkeys & Hvals & Hsize).
  rewrite decide_False in Hsize by done. by split_and!.
Qed.

Lemma values_of_plain names (o : instance) :
  o !! "_param_list" = Some (PyStrList names) →
  Forall (λ p, p ∉ (properties ++ object_slots)%list) names →
  Forall (λ p, is_Some (o !! p)) names →
  Parameters.values o = Ok (stored o <$> names).
Proof.
  intros Hl Hplain Hvals. unfold Parameters.values.
  rewrite (proj2 (get_param_list_Ok _ _) Hl). cbn [mbind res_bind].
  apply mapM_Ok_fmap, Forall_forall. intros p Hp.
  rewrite Forall_forall in Hplain, Hvals.
  destruct (Hvals p Hp) as [v Hv]. unfold stored. rewrite Hv.
  apply getattr_stored; [by apply Hplain | done].
Qed.

Lemma inv_plain names (o : instance) p :
  inv names o → p ∈ names →
  (p ∉ (properties ++ object_slots)%list) ∧ (p ∉ bookkeeping).
Proof.
  intros Hinv Hp.
  pose proof (proj1 (Forall_forall _ _) (inv_names _ _ _ Hinv) p Hp) as Hplain.
  rewrite !not_elem_of_app in Hplain. rewrite not_elem_of_app. tauto.
Qed.

Lemma inv_all_plain names (o : instance) :
  inv names o → Forall (λ p, p ∉ (properties ++ object_slots)%list) names.
Proof.
  intros Hinv. apply Forall_forall. intros p Hp.
  by destruct (inv_plain names o p Hinv Hp).
Qed.

Lemma inv_values_insert names (o : instance) name v :
  inv names o → Forall (λ p, is_Some ((<[name := v]> o : instance) !! p)) names.
Proof.
  intros Hinv. apply Forall_forall. intros p Hp.
  pose proof (proj1 (Forall_forall _ _) (inv_values _ _ _ Hinv) p Hp) as Hv.
  rewrite lookup_insert. destruct (decide _); eauto.
Qed.

Lemma not_bookkeeping p :
  p ∉ bookkeeping → p ≠ "_param_list" ∧ p ≠ "_mapping" ∧ p ≠ "_mapping_".
Proof. unfold bookkeeping. rewrite !not_elem_of_cons. tauto. Qed.

Lemma set_param_index names (o : instance) i v :
  inv names o →
  (0 ≤ i < Z.of_nat (length names) →
   ∃ name, names !! Z.to_nat i = Some name ∧
     Parameters._set_param o (Parameters.PIndex i) v = Ok (<[name := v]> o)) ∧
  (¬ 0 ≤ i < Z.of_nat (length names) →
   Parameters._set_param o (Parameters.PIndex i) v = Raise KeyError).
Proof.
  intros Hinv. unfold Parameters._set_param.
  rewrite (proj2 (get_mapping__Ok _ _) (inv_mapping_ _ _ _ Hinv)).
  cbn [mbind res_bind]. split.
  - intros Hi. rewrite lookup_map_seqZ_0 by lia.
    destruct (lookup_lt_is_Some_2 names (Z.to_nat i) ltac:(lia)) as [name Hname].
    exists name. split; [done|]. rewrite Hname. cbn [from_option mbind res_bind].
    apply setattr_Ok. split; [|done].
    eapply inv_plain; [done|]. by eapply list_elem_of_lookup_2.
  - intros Hi. rewrite (proj2 (lookup_map_seqZ_None 0 names i)); [done|]. lia.
Qed.

(** X3: on a container in any state the code puts it in,
    [_set_param(i, v)] with an integer [i] stores [v] under the name at
    position [i] when [0 <= i < len(names)], and raises [KeyError] for
    every other integer: the index goes through the dictionary
    [_mapping_], so a negative index does not count from the end. *)
Theorem set_param_by_index names (o : instance) i v :
  reachable names o →
  (0 ≤ i < Z.of_nat (length names) →
   ∃ name, names !! Z.to_nat i = Some name ∧
     Parameters._set_param o (Parameters.PIndex i) v = Ok (<[name := v]> o)) ∧
  (¬ 0 ≤ i < Z.of_nat (length names) →
   Parameters._set_param o (Parameters.PIndex i) v = Raise KeyError).
Proof. intros Hinv%reachable_inv. by apply set_param_index. Qed.

(** X4: [_set_param] treats the three forms of its first argument alike:
    the name at position [i], the float equal to [i] and the integer [i]
    give the same result. *)
Theorem set_param_by_name_or_index names (o : instance) i name x v :
  reachable names o → 0 ≤ i → names !! Z.to_nat i = Some name →
  as_integer x = Some i →
  Parameters._set_param o (Parameters.PName name) v
  = Parameters._set_param o (Parameters.PIndex i) v ∧
  Parameters._set_param o (Parameters.PFloat x) v
  = Parameters._set_param o (Parameters.PIndex i) v.
Proof.
  intros Hinv%reachable_inv Hi Hname Hx. unfold Parameters._set_param.
  rewrite (proj2 (get_mapping__Ok _ _) (inv_mapping_ _ _ _ Hinv)).
  cbn [mbind res_bind]. rewrite Hx. cbn [mbind option_bind].
  by rewrite lookup_map_seqZ_0, Hname.
Qed.

(** X5: on a container built from pairwise distinct names, a
    [_set_param(i, v)] that returns leaves [keys] as it was and changes
    [values] at position [i] only, where it puts [v]. *)
Theorem set_param_changes_one_value names (o o' : instance) i v :
  reachable names o → NoDup names →
  Parameters._set_param o (Parameters.PIndex i) v = Ok o' →
  Parameters.keys o' = Ok names ∧
  Parameters.values o'
  = (vs ← Parameters.values o; Ok (<[Z.to_nat i := v]> vs)).
Proof.
  intros Hreach Hnd Hset. pose proof (reachable_inv _ _ Hreach) as Hinv.
  destruct (set_param_index names o i v Hinv) as [Hok Hraise].
  destruct (decide (0 ≤ i < Z.of_nat (length names))) as [Hi|Hi]; cycle 1.
  { by rewrite (Hraise Hi) in Hset. }
  destruct (Hok Hi) as (name & Hname & Hset'). rewrite Hset' in Hset.
  injection Hset as <-.
  assert (Hin : name ∈ names) by (by eapply list_elem_of_lookup_2).
  destruct (inv_plain names o name Hinv Hin) as [Hplain Hbook%not_bookkeeping].
  destruct Hbook as (? & ? & ?).
  assert (Hl : (<[name:=v]> o : instance) !! "_param_list" = Some (PyStrList names)).
  { rewrite lookup_insert_ne by done. apply Hinv. }
  split; [by apply get_param_list_Ok|].
  rewrite (values_inv names o Hinv). cbn [mbind res_bind].
  rewrite (values_of_plain names); [|done| |].
  - f_equal. apply list_eq. intros k.
    rewrite list_lookup_fmap.
    destruct (decide (k = Z.to_nat i)) as [->|Hk].
    + rewrite list_lookup_insert_eq by (rewrite length_fmap; lia).
      rewrite Hname. simpl. unfold stored. by rewrite lookup_insert_eq.
    + rewrite list_lookup_insert_ne by done. rewrite list_lookup_fmap.
      destruct (names !! k) as [p|] eqn:Hp; [|done]. simpl. f_equal.
      unfold stored. rewrite lookup_insert_ne; [done|]. intros <-.
      apply Hk. by eapply NoDup_lookup.
  - by eapply inv_all_plain.
  - by apply inv_values_insert.
Qed.

(** X6: [_set_param] checks no name.  Given a string that is no
    parameter (nor an attribute of the container), it returns and stores
    the value as a new attribute: [keys], [values], [n] and the two
    mappings are what they were, and the value is not among the
    parameters. *)
Theorem set_param_unknown_name names (o : instance) name v :
  reachable names o →
  name ∉ names → name ∉ "n" :: bookkeeping →
  name ∉ (properties ++ object_slots)%list →
  ∃ o', Parameters._set_param o (Parameters.PName name) v = Ok o' ∧
        getattr o' name = Ok v ∧
        Parameters.keys o' = Parameters.keys o ∧
        Parameters.values o' = Parameters.values o ∧
        get_n o' = get_n o ∧
        get_mapping o' = get_mapping o ∧ get_mapping_ o' = get_mapping_ o.
Proof.
  intros Hinv%reachable_inv Hname Hbook Hplain.
  rewrite not_elem_of_cons in Hbook. destruct Hbook as [Hn Hbook%not_bookkeeping].
  destruct Hbook as (? & ? & ?).
  exists (<[name := v]> o). split_and!.
  - unfold Parameters._set_param. cbn [mbind res_bind]. by apply setattr_Ok.
  - apply getattr_stored; [done | apply lookup_insert_eq].
  - unfold Parameters.keys, get_param_list.
    rewrite !getattr_bookkeeping by compute_done. by rewrite lookup_insert_ne.
  - rewrite (values_inv names o Hinv). rewrite (values_of_plain names).
    + f_equal. apply list_fmap_ext. intros k p Hp. unfold stored.
      rewrite lookup_insert_ne; [done|]. intros <-.
      apply Hname. by eapply list_elem_of_lookup_2.
    + rewrite lookup_insert_ne by done. apply Hinv.
    + by eapply inv_all_plain.
    + by apply inv_values_insert.
  - unfold get_n. rewrite !getattr_bookkeeping by compute_done.
    by rewrite lookup_insert_ne.
  - unfold get_mapping. rewrite !getattr_bookkeeping by compute_done.
    by rewrite lookup_insert_ne.
  - unfold get_mapping_. rewrite !getattr_bookkeeping by compute_done.
    by rewrite lookup_insert_ne.
Qed.

(** X7: [to_json] never returns normally, for any object, file name and
    file system: it raises, leaves every other file alone, and leaves the
    named file either as it was (it could not be opened) or empty. *)
Theorem to_json_never_returns encode (o : instance) filename fs :
  let '(r, fs') := Parameters.to_json encode o filename fs in
  r ≠ Ok () ∧
  (∀ f, f ≠ filename → Parameters.files fs' !! f = Parameters.files fs !! f) ∧
  (Parameters.files fs' !! filename = Parameters.files fs !! filename ∨
   Parameters.files fs' !! filename = Some EmptyString).
Proof.
  unfold Parameters.to_json, Parameters.open_w.
  destruct (Parameters.writable fs filename); [|by auto].
  destruct (Parameters.__call__ o) as [d|e]; simpl.
  - split_and!; [done| |right; apply lookup_insert_eq].
    intros f Hf. by rewrite lookup_insert_ne.
  - split_and!; [done| |right; apply lookup_insert_eq].
    intros f Hf. by rewrite lookup_insert_ne.
Qed.

End ContainerMore.

(** ** What the methods leave alone *)

Section FrameLemmas.
Context `{Externals}.

Lemma keeps_bind {A B V} (view : world → V) (m : M A) (k : A → M B) :
  keeps view m → (∀ a, keeps view (k a)) → keeps view (m ≫= k).
Proof.
  intros Hm Hk w r w' [(a & w1 & Hrun1 & Hrun2)|(e & Hrun1 & _)]%run_bind.
  - rewrite (Hk a _ _ _ Hrun2). by eapply Hm.
  - by eapply Hm.
Qed.

Lemma keeps_state_estimator {A} (m : M A) :
  keeps state_view m → keeps estimator_view m.
Proof.
  intros Hm w r w' Hrun. specialize (Hm w r w' Hrun).
  unfold state_view, estimator_view in *. congruence.
Qed.

Lemma keeps_estimator_parameters {A} (m : M A) :
  keeps estimator_view m → keeps parameters_view m.
Proof.
  intros Hm w r w' Hrun. specialize (Hm w r w' Hrun).
  unfold parameters_view, estimator_view in *. congruence.
Qed.

Lemma keeps_reads {A V} (view : world → V) (m : M A) :
  (∀ w r w', m w = (r, w') → w' = w) → keeps view m.
Proof. intros Hm w r w' Hrun. by rewrite (Hm _ _ _ Hrun). Qed.

Lemma keeps_lift {A V} (view : world → V) (r : res A) : keeps view (lift r).
Proof. apply keeps_reads. by intros w r' w' [= _ <-]. Qed.
Lemma keeps_ret {A V} (view : world → V) (a : A) : keeps view (mret a : M A).
Proof. apply keeps_reads. by intros w r' w' [= _ <-]. Qed.
Lemma keeps_raise {A V} (view : world → V) e : keeps view (raise e : M A).
Proof. apply keeps_reads. by intros w r' w' [= _ <-]. Qed.
Lemma keeps_get_self {V} (view : world → V) : keeps view get_self.
Proof. apply keeps_reads. by intros w r' w' [= _ <-]. Qed.
Lemma keeps_the_parameters {V} (view : world → V) : keeps view the_parameters.
Proof. apply keeps_reads. by intros w r' w' [= _ <-]. Qed.
Lemma keeps_get_linear {V} (view : world → V) l : keeps view (get_linear l).
Proof. apply keeps_reads. by intros w r' w' [= _ <-]. Qed.
Lemma keeps_attr {A V} (view : world → V) name (field : estimator → option A) :
  keeps view (attr name field).
Proof. apply keeps_bind; [apply keeps_get_self|]. intros s. apply keeps_lift. Qed.

Lemma keeps_log ev : keeps state_view (log ev).
Proof. by intros w r w' [= _ <-]. Qed.
Lemma keeps_external {A} ev (r : res A) : keeps state_view (external ev r).
Proof. apply keeps_bind; [apply keeps_log|]. intros _. apply keeps_lift. Qed.
Lemma keeps_store_linear l m : keeps estimator_view (store_linear l m).
Proof. by intros w r w' [= _ <-]. Qed.
Lemma keeps_call_linear {A} l ev (method : linear_model → res (A * linear_model)) :
  keeps estimator_view (call_linear l ev method).
Proof.
  apply keeps_bind; [apply keeps_get_linear|]. intros m.
  apply keeps_bind; [apply keeps_state_estimator, keeps_external|]. intros [a m'].
  apply keeps_bind; [apply keeps_store_linear|]. intros _. apply keeps_ret.
Qed.
Lemma keeps_new_linear o mt : keeps estimator_view (new_linear o mt).
Proof.
  apply keeps_bind; [apply keeps_state_estimator, keeps_external|]. intros m.
  by intros w r w' [= _ <-].
Qed.
Lemma keeps_set_Additive a : keeps parameters_view (set_self (set_Additive a)).
Proof. by intros w r w' [= _ <-]. Qed.
Lemma keeps_set_Linear l : keeps parameters_view (set_self (set_Linear l)).
Proof. by intros w r w' [= _ <-]. Qed.
Lemma keeps_set_coef_ c : keeps parameters_view (set_self (set_coef_ c)).
Proof. by intros w r w' [= _ <-]. Qed.

Lemma keeps_for_ {A V} (view : world → V) (l : list A) (body : A → M ()) :
  (∀ x, keeps view (body x)) → keeps view (for_ l body).
Proof.
  intros Hbody. induction l as [|x l IH]; simpl; [apply keeps_ret|].
  apply keeps_bind; [apply Hbody | intros _; exact IH].
Qed.

Lemma keeps_hypothesis Xv th : keeps state_view (hypothesis Xv th).
Proof.
  unfold hypothesis. apply keeps_bind; [apply keeps_get_self|]. intros s.
  destruct (X s); [|apply keeps_raise].
  repeat (apply keeps_bind;
          [first [apply keeps_the_parameters | apply keeps_lift | apply keeps_attr]
          |intros ?]).
  apply keeps_external.
Qed.

Lemma keeps_thetas : keeps id thetas.
Proof.
  unfold thetas.
  repeat (apply keeps_bind;
          [first [apply keeps_the_parameters | apply keeps_lift | apply keeps_attr
                 | apply keeps_get_linear]
          |intros ?]).
  apply keeps_ret.
Qed.

(** A statement that only reads either stops there or hands its value
    on in the same world. *)
Lemma reads_then {A B} (m : M A) (k : A → M B) w r w' :
  keeps id m → (m ≫= k) w = (r, w') →
  w' = w ∨ ∃ a, m w = (Ok a, w) ∧ k a w = (r, w').
Proof.
  intros Hm [(a & w1 & Hrun1 & Hrun2)|(e & Hrun1 & _)]%run_bind.
  - right. exists a. pose proof (Hm _ _ _ Hrun1) as Heq. unfold id in Heq.
    by subst w1.
  - left. exact (Hm _ _ _ Hrun1).
Qed.

Lemma run_external_any {A} ev (r r' : res A) w w' :
  external ev r w = (r', w') →
  r' = r ∧ trace w' = (trace w ++ [ev])%list.
Proof.
  unfold external, mbind, M_bind, bind, log, lift. simpl. by intros [= <- <-].
Qed.

(** X8: whatever its outcome, [hypothesis] changes no attribute of the
    estimator, no [Parameters] object and no sub-model, and it makes at
    most one call: the user's function. *)
Theorem hypothesis_changes_nothing Xv th w r w' :
  hypothesis Xv th w = (r, w') →
  self w' = self w ∧ parameters_store w' = parameters_store w ∧
  linear_store w' = linear_store w ∧
  (trace w' = trace w ∨
   ∃ y1 args, trace w' = (trace w ++ [EvCall TheFunction (Some y1) args])%list).
Proof.
  intros Hrun. pose proof (keeps_hypothesis Xv th w r w' Hrun) as [= Hs Hp Hl].
  split_and!; [done..|]. clear Hs Hp Hl. unfold hypothesis in Hrun.
  apply reads_then in Hrun as [->|(s & _ & Hrun)]; [by left | |apply keeps_get_self].
  destruct (X s) as [xv|]; [|injection Hrun as _ <-; by left].
  apply reads_then in Hrun as [->|(o & _ & Hrun)]; [by left | |apply keeps_the_parameters].
  apply reads_then in Hrun as [->|(i & _ & Hrun)]; [by left | |apply keeps_lift].
  apply reads_then in Hrun as [->|(ep & _ & Hrun)]; [by left | |apply keeps_attr].
  apply reads_then in Hrun as [->|(t & _ & Hrun)]; [by left | |apply keeps_lift].
  apply reads_then in Hrun as [->|(i' & _ & Hrun)]; [by left | |apply keeps_lift].
  apply reads_then in Hrun as [->|(y1 & _ & Hrun)]; [by left | |apply keeps_lift].
  right. eexists y1, _. by apply run_external_any in Hrun as [_ ->].
Qed.

(** X9: the property [thetas] only reads: whether it returns or raises,
    the estimator, the stores and the record of calls are what they
    were. *)
Theorem thetas_changes_nothing w r w' : thetas w = (r, w') → w' = w.
Proof. apply keeps_thetas. Qed.

End FrameLemmas.

Section PredictionFrames.
Context `{Scoring}.

Lemma keeps_ask_linear {A} l (method : linear_model → res (A * linear_model)) :
  keeps estimator_view (ask_linear l method).
Proof.
  apply keeps_bind; [apply keeps_get_linear|]. intros m.
  apply keeps_bind; [apply keeps_lift|]. intros [a m'].
  apply keeps_bind; [apply keeps_store_linear|]. intros _. apply keeps_ret.
Qed.

Lemma keeps_predict Xv : keeps estimator_view (predict Xv).
Proof.
  unfold predict.
  repeat (apply keeps_bind;
          [first [apply keeps_the_parameters | apply keeps_lift | apply keeps_attr
                 | apply keeps_get_self | apply keeps_call_linear]
          |intros ?]).
  apply keeps_state_estimator, keeps_external.
Qed.

Lemma keeps_score Xv y : keeps estimator_view (score Xv y).
Proof.
  unfold score.
  repeat (apply keeps_bind;
          [first [apply keeps_the_parameters | apply keeps_lift | apply keeps_attr
                 | apply keeps_get_self | apply keeps_get_linear
                 | apply keeps_call_linear | apply keeps_ask_linear
                 | apply keeps_state_estimator, keeps_external]
          |intros ?]).
  apply keeps_ret.
Qed.

(** X10: whatever its outcome, [predict] changes no attribute of the
    estimator and no [Parameters] object; and it returns a value only on
    an estimator that has its [Linear] sub-model, that is after [fit]. *)
Theorem predict_keeps_the_estimator Xv w r w' :
  predict Xv w = (r, w') →
  self w' = self w ∧ parameters_store w' = parameters_store w ∧
  ((∃ y, r = Ok y) → is_Some (Linear (self w))).
Proof.
  intros Hrun. pose proof (keeps_predict Xv w r w' Hrun) as [= Hs Hp].
  split_and!; [done..|]. intros [y ->]. unfold predict in Hrun.
  apply run_bind_Ok in Hrun as (l & ? & [Hl ->]%run_attr & _). eauto.
Qed.

(** X11: whatever its outcome, [score] changes no attribute of the
    estimator and no [Parameters] object; and it returns a pair only on
    an estimator that has both sub-models, [Additive] and [Linear]. *)
Theorem score_keeps_the_estimator Xv y w r w' :
  score Xv y w = (r, w') →
  self w' = self w ∧ parameters_store w' = parameters_store w ∧
  ((∃ s, r = Ok s) → is_Some (Additive (self w)) ∧ is_Some (Linear (self w))).
Proof.
  intros Hrun. pose proof (keeps_score Xv y w r w' Hrun) as [= Hs Hp].
  split_and!; [done..|]. intros [sc ->]. unfold score in Hrun.
  apply run_bind_Ok in Hrun as (s & ? & [= <- <-] & Hrun).
  apply run_bind_Ok in Hrun as (a & ? & [Ha ->]%run_attr & Hrun).
  split; [eauto|].
  assert (Hkeep : ∀ {A} (m : M A) {B} (k : A → M B) w0 r0 w1,
            keeps estimator_view m → (m ≫= k) w0 = (Ok r0, w1) →
            ∃ a0 w0', self w0' = self w0 ∧ k a0 w0' = (Ok r0, w1)).
  { intros A m B k w0 r0 w1 Hm (a0 & w0' & Hrun1 & Hrun2)%run_bind_Ok.
    exists a0, w0'. split; [|done]. by pose proof (Hm _ _ _ Hrun1) as [= -> _]. }
  apply Hkeep in Hrun as (ma & w1 & Hs1 & Hrun);
    [|apply keeps_state_estimator, keeps_reads; intros ??? [= _ <-]; done].
  rewrite <- Hs1. clear Hs1.
  repeat match type of Hrun with
  | (attr "Linear" Linear ≫= _) _ = _ => fail 1
  | _ => apply Hkeep in Hrun as (? & ? & <- & Hrun);
         [|first [apply keeps_the_parameters | apply keeps_lift
                 | apply keeps_get_self | apply keeps_get_linear
                 | apply keeps_call_linear
                 | apply keeps_state_estimator, keeps_external]]
  end.
  apply run_bind_Ok in Hrun as (l & ? & [Hl ->]%run_attr & _). eauto.
Qed.

End PredictionFrames.

(** ** The parameters through a fit, whatever its outcome *)

Section FitKeeps.
Context `{Externals}.
Variables (names : list string) (l : loc) (ps : gmap loc instance).

Lemma preserves_bind {A B} J (m : M A) (k : A → M B) :
  preserves J m → (∀ a, preserves J (k a)) → preserves J (m ≫= k).
Proof.
  intros Hm Hk w r w' HJ [(a & w1 & Hrun1 & Hrun2)|(e & Hrun1 & _)]%run_bind.
  - eapply Hk; [|exact Hrun2]. by eapply Hm.
  - by eapply Hm.
Qed.

Lemma preserves_after {A B} (J : world → Prop) (m : M A) (k : A → M B) w r w' :
  (∀ r1 w1, m w = (r1, w1) → J w1) → (∀ a, preserves J (k a)) →
  (m ≫= k) w = (r, w') → J w'.
Proof.
  intros Hm Hk [(a & w1 & Hrun1 & Hrun2)|(e & Hrun1 & _)]%run_bind.
  - eapply Hk; [|exact Hrun2]. by eapply Hm.
  - by eapply Hm.
Qed.

Lemma keeps_preserves {A} (m : M A) :
  keeps parameters_view m → preserves (well_kept names l ps) m.
Proof.
  intros Hm w r w' (Hl & Hothers & o & Ho & Hreach) Hrun.
  pose proof (Hm _ _ _ Hrun) as [= Hpar Hstore].
  unfold well_kept. rewrite Hpar, Hstore. eauto.
Qed.

(** The loop of [_fit_] that stores the solution, stopped anywhere. *)
Lemma store_loop_preserves (popt : vector) size idxs :
  Forall (λ i, 0 ≤ i < size) idxs →
  preserves (λ w, well_kept names l ps w ∧
                  ∃ o, parameters_store w !! l = Some o ∧ get_n o = Ok size)
    (for_ idxs (λ i,
       o ← the_parameters;
       v ← lift (list_getitem popt i);
       o' ← lift (invoke o "_set_param"
                    (Parameters._set_param o (Parameters.PIndex i) (PyNum v)));
       store_parameters o')).
Proof.
  induction 1 as [|i idxs Hi _ IH]; simpl.
  { by intros w r w' HJ [= _ <-]. }
  apply preserves_bind; [|intros _; exact IH].
  intros w r w' [(Hl & Hothers & o & Ho & Hreach) (o0 & Ho0 & Hsize)] Hrun.
  rewrite Ho in Ho0. injection Ho0 as <-.
  assert (Hsame : well_kept names l ps w ∧
                  ∃ o, parameters_store w !! l = Some o ∧ get_n o = Ok size).
  { split; [split_and!; eauto | eauto]. }
  apply reads_then in Hrun as [->|(o1 & [Ho1 _]%run_the_parameters & Hrun)];
    [done| |apply keeps_the_parameters].
  rewrite Hl, Ho in Ho1. injection Ho1 as <-.
  apply reads_then in Hrun as [->|(v & _ & Hrun)]; [done| |apply keeps_lift].
  apply reads_then in Hrun as [->|(o2 & [Hstep _]%run_lift & Hrun)];
    [done| |apply keeps_lift].
  injection Hrun as _ <-. clear Hsame.
  apply invoke_Ok in Hstep as [_ Hstep].
  destruct (set_param_inv names o o2 size i (PyNum v))
    as (_ & Hnn & _ & name & Hname & Ho2); [by apply reachable_inv|done..|].
  unfold well_kept. simpl. rewrite Hl, lookup_insert_eq. split_and!.
  - done.
  - intros l' Hl'. rewrite lookup_insert_ne by done. by apply Hothers.
  - exists o2. split; [done|]. by eapply reach_set.
  - exists o2. split; [done|]. subst o2. apply get_n_Ok.
    rewrite lookup_insert_ne; [by apply get_n_Ok|].
    intros ->. apply Hnn. by eapply list_elem_of_lookup_2.
Qed.

Ltac keeps_step :=
  first [ apply keeps_the_parameters | apply keeps_lift | apply keeps_attr
        | apply keeps_get_self | apply keeps_get_linear | apply keeps_ret
        | apply keeps_raise
        | apply keeps_set_Additive | apply keeps_set_Linear | apply keeps_set_coef_
        | apply keeps_estimator_parameters;
          first [ apply keeps_call_linear | apply keeps_new_linear
                | apply keeps_store_linear
                | apply keeps_state_estimator, keeps_external ] ].

Ltac keeps_parameters :=
  first [ keeps_step | apply keeps_bind; [keeps_step | intros ?; keeps_parameters] ].

Lemma fit_inner_preserves Xv y sample_weight kwargs :
  preserves (well_kept names l ps) (_fit_ Xv y sample_weight kwargs).
Proof.
  unfold _fit_.
  do 9 (apply preserves_bind; [apply keeps_preserves; keeps_step | intros ?]).
  cbv zeta.
  apply preserves_bind; [apply keeps_preserves; keeps_step | intros s].
  apply preserves_bind; [apply keeps_preserves; keeps_step | intros popt].
  intros w r w' HJ Hrun. pose proof HJ as (Hl & Hothers & o & Ho & Hreach).
  apply reads_then in Hrun as [->|(o1 & [Ho1 _]%run_the_parameters & Hrun)];
    [done| |apply keeps_the_parameters].
  rewrite Hl, Ho in Ho1. injection Ho1 as <-.
  apply reads_then in Hrun as [->|(size & [Hsize _]%run_lift & Hrun)];
    [done| |apply keeps_lift].
  eapply (preserves_after (well_kept names l ps)); [| |exact Hrun].
  - intros r1 w1 Hrun1.
    eapply (store_loop_preserves popt size (range size)); [| |exact Hrun1].
    + apply Forall_forall.
      intros i (k & -> & Hk%elem_of_seq)%list_elem_of_fmap. lia.
    + split; [exact HJ|]. by exists o.
  - intros ?. apply keeps_preserves.
    apply keeps_bind; [keeps_step | intros s'].
    apply keeps_bind.
    + destruct (decide (1 < order s')); keeps_parameters.
    + intros _. keeps_parameters.
Qed.

Lemma fit_preserves Xv y sample_weight use_widgets kwargs :
  preserves (well_kept names l ps) (fit Xv y sample_weight use_widgets kwargs).
Proof.
  unfold fit.
  apply preserves_bind; [apply keeps_preserves; keeps_step | intros s].
  destruct (gpm s) as [g|]; [|apply keeps_preserves; keeps_step].
  do 9 (apply preserves_bind; [apply keeps_preserves; keeps_step | intros ?]).
  destruct use_widgets; [apply keeps_preserves; keeps_step|].
  apply preserves_bind; [apply fit_inner_preserves|].
  intros _. apply keeps_preserves. keeps_step.
Qed.

End FitKeeps.

Section FitOutcomes.
Context `{Externals}.

(** X12: whatever [fit] does - return, raise at any point, or hand the
    fit to the widgets - the estimator keeps the same [Parameters]
    object: [self.parameters] is the same address, the object there is
    in a state that construction and storing by index can produce, with
    the same [keys], and no other [Parameters] object is touched. *)
Theorem fit_keeps_parameters_well_formed names (o : instance)
    Xv y sample_weight use_widgets kwargs w r w' :
  parameters_store w !! parameters (self w) = Some o →
  reachable names o →
  fit Xv y sample_weight use_widgets kwargs w = (r, w') →
  parameters (self w') = parameters (self w) ∧
  (∀ l', l' ≠ parameters (self w) →
         parameters_store w' !! l' = parameters_store w !! l') ∧
  ∃ o', parameters_store w' !! parameters (self w) = Some o' ∧
        reachable names o' ∧ Parameters.keys o' = Ok names.
Proof.
  intros Ho Hreach Hrun.
  destruct (fit_preserves names (parameters (self w)) (parameters_store w)
              Xv y sample_weight use_widgets kwargs w r w')
    as (Hl & Hothers & o' & Ho' & Hreach'); [|done|].
  { split_and!; [done..|]. eauto. }
  split_and!; [done..|]. exists o'. split_and!; [done..|].
  by apply keys_inv, reachable_inv.
Qed.

Lemma keeps_additive_of_estimator {A} (m : M A) :
  keeps estimator_view m → keeps (λ w, Additive (self w)) m.
Proof.
  intros Hm w r w' Hrun. by pose proof (Hm w r w' Hrun) as [= -> _].
Qed.

Lemma keeps_additive_set_Linear l :
  keeps (λ w, Additive (self w)) (set_self (set_Linear l)).
Proof. by intros w r w' [= _ <-]. Qed.

Lemma keeps_additive_set_coef_ c :
  keeps (λ w, Additive (self w)) (set_self (set_coef_ c)).
Proof. by intros w r w' [= _ <-]. Qed.

Lemma keeps_additive_store_parameters o :
  keeps (λ w, Additive (self w)) (store_parameters o).
Proof. by intros w r w' [= _ <-]. Qed.

Ltac keeps_additive_step :=
  first [ apply keeps_the_parameters | apply keeps_lift | apply keeps_attr
        | apply keeps_get_self | apply keeps_get_linear | apply keeps_ret
        | apply keeps_raise
        | apply keeps_additive_set_Linear | apply keeps_additive_set_coef_
        | apply keeps_additive_store_parameters
        | apply keeps_additive_of_estimator;
          first [ apply keeps_call_linear | apply keeps_new_linear
                | apply keeps_store_linear
                | apply keeps_state_estimator, keeps_external ] ].

Ltac keeps_additive :=
  first [ keeps_additive_step
        | apply keeps_bind; [keeps_additive_step | intros ?; keeps_additive] ].

Lemma fit_inner_keeps_additive Xv y sample_weight kwargs :
  keeps (λ w, Additive (self w)) (_fit_ Xv y sample_weight kwargs).
Proof.
  unfold _fit_.
  do 9 (apply keeps_bind; [keeps_additive_step | intros ?]). cbv zeta.
  do 4 (apply keeps_bind; [keeps_additive_step | intros ?]).
  apply keeps_bind; [apply keeps_for_; intros i; keeps_additive | intros ?].
  apply keeps_bind; [keeps_additive_step | intros s].
  apply keeps_bind; [|intros ?; keeps_additive].
  destruct (decide (1 < order s)); keeps_additive.
Qed.

(** X13: [fit] is not all-or-nothing.  Once the map is attached and the
    additive sub-model can be built, every call of [fit] - also one that
    raises later, at any point - leaves in [self.Additive] a sub-model
    that did not exist before the call: the one of an earlier fit is
    gone. *)
Theorem fit_replaces_the_additive_model Xv y sample_weight use_widgets kwargs
    w r w' g ma0 :
  gpm (self w) = Some g →
  linear_new 1 (model_type (self w)) = Ok ma0 →
  fit Xv y sample_weight use_widgets kwargs w = (r, w') →
  ∃ a, Additive (self w') = Some a ∧ linear_store w !! a = None.
Proof.
  intros Hg Hnew Hrun. unfold fit in Hrun.
  apply run_bind in Hrun as [(s & w1 & [= <- <-] & Hrun)|(e & [=] & _)].
  rewrite Hg in Hrun.
  apply run_bind in Hrun as [(a & w1 & Ha & Hrun)|(e & Hfail & _)]; cycle 1.
  { unfold new_linear in Hfail.
    apply run_bind in Hfail
      as [(m & w1 & _ & [=])|(e' & [Hfail _]%run_external_any & _)].
    congruence. }
  apply run_new_linear in Ha as (m & _ & -> & ->).
  apply run_bind in Hrun as [([] & w2 & ->%run_set_self & Hrun)|(e & [=] & _)].
  exists (fresh (dom (linear_store w))). split.
  - match type of Hrun with
    | ?rest _ = _ => assert (Hkeep : keeps (λ w, Additive (self w)) rest)
    end.
    { do 7 (apply keeps_bind; [keeps_additive_step | intros ?]).
      destruct use_widgets; [keeps_additive_step|].
      apply keeps_bind;
        [apply fit_inner_keeps_additive | intros ?; keeps_additive_step]. }
    by rewrite (Hkeep _ _ _ Hrun).
  - apply not_elem_of_dom, is_fresh.
Qed.

End FitOutcomes.

(** ** The starting point handed to the solver *)

Section Guesses.
Context `{Externals}.

Lemma mapping_of_names names (o : instance) :
  inv names o → NoDup names →
  ∃ m, get_mapping o = Ok m ∧
       (∀ i name, names !! i = Some name → m !! name = Some (Z.of_nat i)) ∧
       (∀ name, name ∉ names → m !! name = None).
Proof.
  intros Hinv Hnd. destruct (inv_mapping _ _ _ Hinv) as (m & Hm & Hm1 & Hm2).
  exists m. split_and!.
  - by apply get_mapping_Ok.
  - intros i name Hi.
    destruct (Hm2 name) as [k Hk]; [by eapply list_elem_of_lookup_2|].
    destruct (Hm1 _ _ Hk) as [Hk0 Hname].
    rewrite Hk. f_equal.
    pose proof (NoDup_lookup _ _ _ _ Hnd Hi Hname). lia.
  - intros name Hname. destruct (m !! name) as [k|] eqn:Hk; [|done].
    destruct (Hm1 _ _ Hk) as [_ Hin]. destruct Hname.
    by eapply list_elem_of_lookup_2.
Qed.

Lemma np_setitem_in_range (g : vector) (i : nat) v :
  (i < length g)%nat → np_setitem g (Z.of_nat i) v = Ok (<[i := v]> (g : list scalar)).
Proof.
  intros Hi. unfold np_setitem. cbv zeta. rewrite decide_True by lia.
  by rewrite Nat2Z.id.
Qed.

Lemma guesses_loop names (m : gmap string Z) kwargs (g : vector) :
  NoDup names → NoDup kwargs.*1 →
  (∀ i name, names !! i = Some name → m !! name = Some (Z.of_nat i)) →
  length g = length names →
  Forall (λ kw, kw.1 ∈ names) kwargs →
  ∃ p0, for_each (λ guesses kw,
                    index ← from_option KeyError (m !! kw.1);
                    np_setitem guesses index kw.2) kwargs g = Ok p0 ∧
        length p0 = length names ∧
        ∀ i name, names !! i = Some name →
          p0 !! i = match (list_to_map kwargs : gmap string scalar) !! name with
                    | Some v => Some v
                    | None => g !! i
                    end.
Proof.
  intros Hnd Hkw Hm1. revert g Hkw.
  induction kwargs as [|[k v] kwargs IH]; intros g Hkw Hlen Hall.
  - exists g. split_and!; [done..|]. intros i name _.
    cbn [list_to_map foldr]. by rewrite lookup_empty.
  - rewrite fmap_cons in Hkw. apply NoDup_cons in Hkw as [Hk Hkw].
    apply Forall_cons in Hall as [Hin Hall].
    simpl in Hin. apply list_elem_of_lookup in Hin as [idx Hidx].
    pose proof (lookup_lt_Some _ _ _ Hidx) as Hlt.
    assert (Hlen' : length (<[idx := v]> (g : list scalar)) = length names)
      by (by rewrite length_insert).
    destruct (IH _ Hkw Hlen' Hall) as (p0 & Hp0 & Hlen0 & Hval).
    exists p0. split_and!; [|done|].
    + cbn [for_each fst snd]. rewrite (Hm1 _ _ Hidx). cbn [from_option mbind res_bind].
      rewrite np_setitem_in_range by lia. exact Hp0.
    + intros i name Hi. rewrite (Hval i name Hi). cbn [list_to_map foldr uncurry].
      destruct (decide (name = k)) as [->|Hne].
      * rewrite lookup_insert_eq.
        rewrite (not_elem_of_list_to_map_1 _ k) by done.
        rewrite (NoDup_lookup _ _ _ _ Hnd Hi Hidx).
        apply list_lookup_insert_eq. lia.
      * rewrite lookup_insert_ne by done.
        destruct (list_to_map kwargs !! name); [done|].
        apply list_lookup_insert_ne. intros <-. congruence.
Qed.

Lemma guesses_unknown_name names (m : gmap string Z) kwargs (g : vector) :
  (∀ i name, names !! i = Some name → m !! name = Some (Z.of_nat i)) →
  (∀ name, name ∉ names → m !! name = None) →
  length g = length names →
  Exists (λ kw, kw.1 ∉ names) kwargs →
  for_each (λ guesses kw,
              index ← from_option KeyError (m !! kw.1);
              np_setitem guesses index kw.2) kwargs g = Raise KeyError.
Proof.
  intros Hm1 Hm2 Hlen Hex. revert g Hlen.
  induction Hex as [[k v] kwargs Hk|[k v] kwargs _ IH]; intros g Hlen;
    cbn [for_each fst snd].
  - by rewrite (Hm2 k Hk).
  - destruct (decide (k ∈ names)) as [Hin|Hout].
    + apply list_elem_of_lookup in Hin as [idx Hidx].
      pose proof (lookup_lt_Some _ _ _ Hidx) as Hlt.
      rewrite (Hm1 _ _ Hidx). cbn [from_option mbind res_bind].
      rewrite np_setitem_in_range by lia.
      cbn [mbind res_bind]. apply IH. by rewrite length_insert.
    + by rewrite (Hm2 _ Hout).
Qed.

Lemma initial_guesses_spec names (o : instance) kwargs :
  reachable names o → NoDup names → "n" ∉ names → NoDup kwargs.*1 →
  (Forall (λ kw, kw.1 ∈ names) kwargs →
   ∃ p0, initial_guesses o kwargs = Ok p0 ∧ length p0 = length names ∧
     ∀ i name, names !! i = Some name →
       p0 !! i = Some (default one ((list_to_map kwargs : gmap string scalar) !! name))) ∧
  (¬ Forall (λ kw, kw.1 ∈ names) kwargs → initial_guesses o kwargs = Raise KeyError).
Proof.
  intros Hinv%reachable_inv Hnd Hn Hkw.
  assert (Hsize : get_n o = Ok (Z.of_nat (length names))).
  { apply get_n_Ok. rewrite (inv_n _ _ _ Hinv). by rewrite decide_False. }
  unfold initial_guesses. rewrite Hsize. cbn [mbind res_bind].
  unfold np_ones. rewrite decide_False by lia. cbn [mbind res_bind].
  rewrite Nat2Z.id.
  destruct (mapping_of_names names o Hinv Hnd) as (m & Hm & Hm1 & Hm2).
  rewrite Hm. cbn [mbind res_bind]. split.
  - intros Hall.
    destruct (guesses_loop names m kwargs (replicate (length names) one))
      as (p0 & Hp0 & Hlen & Hval); [done..|by rewrite length_replicate|done|].
    exists p0. split_and!; [done..|]. intros i name Hi. rewrite (Hval i name Hi).
    destruct (list_to_map kwargs !! name); [done|]. simpl.
    apply lookup_replicate_2. by eapply lookup_lt_Some.
  - intros Hex%not_Forall_Exists; [|solve_decision].
    apply (guesses_unknown_name names); [done..|by rewrite length_replicate|].
    eapply Exists_impl; [exact Hex|]. done.
Qed.

(** X14: a fit without widgets returns only if every keyword names a
    parameter, and then the solver was started from a vector with one
    entry per parameter: the keyword's value where one is given for the
    parameter, and 1 elsewhere.  The values stored in the parameters play
    no part: a second fit does not start from the result of the first. *)
Theorem fit_starts_from_the_guesses names (o : instance)
    Xv y sample_weight kwargs w r w' :
  parameters_store w !! parameters (self w) = Some o →
  reachable names o → NoDup names → "n" ∉ names → NoDup kwargs.*1 →
  fit Xv y sample_weight false kwargs w = (Ok r, w') →
  Forall (λ kw, kw.1 ∈ names) kwargs ∧
  ∃ x p0,
    EvCurveFit TheFunction x y p0 (inv_sqrt <$> sample_weight) ∈ trace w' ∧
    length p0 = length names ∧
    ∀ i name, names !! i = Some name →
      p0 !! i = Some (default one ((list_to_map kwargs : gmap string scalar) !! name)).
Proof.
  intros Ho Hreach Hnd Hn Hkw
    (g & a & l & ma0 & ma1 & ma2 & ma3 & ml0 & x & o1 & p0 & popt & size & o' &
     _ & _ & _ & _ & _ & _ & _ & _ & Ho1 & Hp0 & _ & _ & _ & _ & _ & _ & _ & Hbranch)%fit_spec.
  rewrite Ho in Ho1. injection Ho1 as <-.
  destruct (initial_guesses_spec names o kwargs Hreach Hnd Hn Hkw) as [Hgood Hbad].
  destruct (decide (Forall (λ kw : string * scalar, kw.1 ∈ names) kwargs)) as [Hall|Hnot];
    [|by rewrite (Hbad Hnot) in Hp0].
  split; [done|]. destruct (Hgood Hall) as (p0' & Hp0' & Hlen & Hval).
  rewrite Hp0 in Hp0'. injection Hp0' as <-.
  exists x, p0. split_and!; [|done..].
  destruct (decide (1 < order (self w))).
  - destruct Hbranch as (? & ? & ? & _ & _ & _ & _ & _ & _ & ->).
    rewrite !elem_of_app, !elem_of_cons. tauto.
  - destruct Hbranch as (_ & _ & _ & ->).
    rewrite !elem_of_app, !elem_of_cons. tauto.
Qed.

End Guesses.

(** ** The estimator after a fit *)

Section AfterFit.
Context `{Externals}.

Lemma solution_values names (popt : vector) (o o' : instance) size :
  reachable names o → NoDup names → "n" ∉ names → get_n o = Ok size →
  store_solution popt o size = Ok o' →
  Parameters.values o' = Ok (PyNum <$> take (length names) popt).
Proof.
  intros Hreach Hnd Hn Hsize Hstore.
  destruct (store_solution_spec names popt o o' size) as (Hr' & _ & Hvals); [done..|].
  pose proof (reachable_inv _ _ Hreach) as Hinv.
  apply get_n_Ok in Hsize. rewrite (inv_n _ _ _ Hinv), decide_False in Hsize by done.
  injection Hsize as <-.
  rewrite (values_inv names) in Hvals |- * by (by apply reachable_inv).
  f_equal. apply list_eq. intros k.
  destruct (decide (k < length names)%nat) as [Hk|Hk].
  - destruct (Hvals (Z.of_nat k) ltac:(lia)) as (v & Hv & Hov).
    cbn [mbind res_bind] in Hov.
    apply list_getitem_Ok in Hv, Hov; [|lia..]. rewrite Nat2Z.id in Hv, Hov.
    by rewrite Hov, list_lookup_fmap, lookup_take_lt, Hv.
  - rewrite !list_lookup_fmap, lookup_take_ge by lia.
    by rewrite lookup_ge_None_2 by lia.
Qed.

Lemma mapM_to_scalar (v : vector) : mapM to_scalar (PyNum <$> v) = Ok v.
Proof. induction v as [|x v IH]; [done|]. cbn. by rewrite IH. Qed.

Lemma thetas_run w (o : instance) vals l m c nonlinear :
  parameters_store w !! parameters (self w) = Some o →
  Parameters.values o = Ok vals →
  Linear (self w) = Some l → linear_store w !! l = Some m → lm_coef_ m = Some c →
  mapM to_scalar vals = Ok nonlinear →
  thetas w = (Ok (nonlinear ++ c)%list, w).
Proof.
  intros Ho Hvals Hl Hm Hc Hnl.
  unfold thetas, the_parameters, attr, get_self, get_linear, lift, mbind, M_bind, bind.
  rewrite Ho. cbn [from_option]. rewrite Hvals, Hl. cbn [from_option].
  rewrite Hm. cbn [from_option]. rewrite Hc. cbn [from_option]. by rewrite Hnl.
Qed.

Lemma fit_inner_sets_coef Xv y sw kw w u w' :
  _fit_ Xv y sw kw w = (Ok u, w') → is_Some (coef_ (self w')).
Proof.
  unfold _fit_. intros Hrun.
  do 9 (apply run_bind_Ok in Hrun as (? & ? & _ & Hrun)). cbv zeta in Hrun.
  do 10 (apply run_bind_Ok in Hrun as (? & ? & _ & Hrun)).
  apply run_set_self in Hrun as ->. simpl. eauto.
Qed.

Lemma fit_sets_coef Xv y sw kw w r w' :
  fit Xv y sw false kw w = (Ok r, w') → is_Some (coef_ (self w')).
Proof.
  unfold fit. intros Hrun.
  apply run_bind_Ok in Hrun as (s & ? & _ & Hrun).
  destruct (gpm s); [|done].
  do 9 (apply run_bind_Ok in Hrun as (? & ? & _ & Hrun)).
  apply run_bind_Ok in Hrun as (? & ? & Hrun & [= _ <-]).
  by eapply fit_inner_sets_coef.
Qed.

(** What a fit that returns leaves behind, as the later methods read it. *)
Lemma fit_leaves names (o : instance) Xv y sw kw w r w' :
  parameters_store w !! parameters (self w) = Some o →
  reachable names o → NoDup names → "n" ∉ names →
  fit Xv y sw false kw w = (Ok r, w') →
  ∃ x p0 popt o' l m c,
    curve_fit (function (self w)) x y p0 (inv_sqrt <$> sw) = Ok popt ∧
    function (self w') = function (self w) ∧
    parameters_store w' !! parameters (self w') = Some o' ∧
    Parameters.values o' = Ok (PyNum <$> take (length names) popt) ∧
    Linear (self w') = Some l ∧ linear_store w' !! l = Some m ∧
    lm_coef_ m = Some c ∧ coef_ (self w') = Some c ∧
    (order (self w) ≤ 1 → Additive (self w') = Some l).
Proof.
  intros Ho Hreach Hnd Hn Hrun.
  destruct (fit_sets_coef _ _ _ _ _ _ _ Hrun) as [c Hc].
  apply fit_spec in Hrun
    as (g & a & l & ma0 & ma1 & ma2 & ma3 & ml0 & x & o1 & p0 & popt & size & o' &
        _ & _ & _ & _ & _ & _ & _ & _ & Ho1 & _ & Hcurve & Hsize & Hstore & Hps &
        Hpar & Hfun & Hadd & Hbranch).
  rewrite Ho in Ho1. injection Ho1 as <-.
  pose proof (solution_values names popt o o' size Hreach Hnd Hn Hsize Hstore) as Hvals.
  assert (Ho' : parameters_store w' !! parameters (self w') = Some o').
  { by rewrite Hps, Hpar, lookup_insert_eq. }
  destruct (decide (1 < order (self w))) as [Hord|Hord].
  - destruct Hbranch as (vals & ly & ml' & _ & _ & _ & Hl & Hcoef & Hml & _).
    exists x, p0, popt, o', l, ml', c. split_and!; try done; [congruence|lia].
  - destruct Hbranch as (Hl & Hcoef & Hml & _).
    exists x, p0, popt, o', a, ma3, c. split_and!; try done. congruence.
Qed.

(** X15: after a fit without widgets that returns, on parameters with
    pairwise distinct names other than [n], the property [thetas]
    returns the first [len(names)] entries of the solver's [popt]
    followed by [self.coef_], and changes nothing. *)
Theorem thetas_after_fit names (o : instance) Xv y sample_weight kwargs w r w' :
  parameters_store w !! parameters (self w) = Some o →
  reachable names o → NoDup names → "n" ∉ names →
  fit Xv y sample_weight false kwargs w = (Ok r, w') →
  ∃ x p0 popt c,
    curve_fit (function (self w)) x y p0 (inv_sqrt <$> sample_weight) = Ok popt ∧
    coef_ (self w') = Some c ∧
    thetas w' = (Ok (take (length names) popt ++ c)%list, w').
Proof.
  intros Ho Hreach Hnd Hn Hrun.
  destruct (fit_leaves names o _ _ _ _ _ _ _ Ho Hreach Hnd Hn Hrun)
    as (x & p0 & popt & o' & l & m & c &
        Hcurve & _ & Ho' & Hvals & Hl & Hm & Hc & Hcoef & _).
  exists x, p0, popt, c. split_and!; [done..|].
  eapply thetas_run; [done..|]. apply mapM_to_scalar.
Qed.

End AfterFit.

Section PredictAfterFit.
Context `{Scoring}.

Lemma predict_run Xq w (o : instance) vals l m xq m' :
  Linear (self w) = Some l → linear_store w !! l = Some m →
  linear_predict m Xq = Ok (xq, m') →
  parameters_store w !! parameters (self w) = Some o →
  Parameters.values o = Ok vals →
  predict Xq w
  = (call (function (self w)) (Some xq) vals,
     {| self := self w; parameters_store := parameters_store w;
        linear_store := <[l := m']> (linear_store w);
        trace := trace w ++ [EvLinearPredict l Xq; EvCall TheFunction (Some xq) vals] |}).
Proof.
  intros Hl Hm Hpred Ho Hvals.
  unfold predict, call_linear, external, log, store_linear, the_parameters, attr,
    get_self, get_linear, lift, mbind, M_bind, bind, mret, M_ret, ret.
  rewrite Hl. cbn [from_option]. rewrite Hm. cbn [from_option].
  rewrite Hpred. cbn [self parameters_store linear_store trace].
  rewrite Ho. cbn [from_option]. rewrite Hvals.
  by rewrite <- app_assoc.
Qed.

(** X16: after a fit without widgets that returns, [predict(X)] asks the
    [Linear] sub-model for its prediction on [X] and returns the user's
    function of it at the first [len(names)] entries of the solver's
    [popt]; at order 1 or less that sub-model is the additive one. *)
Theorem predict_after_fit names (o : instance) Xv y sample_weight kwargs w r w' Xq :
  parameters_store w !! parameters (self w) = Some o →
  reachable names o → NoDup names → "n" ∉ names →
  fit Xv y sample_weight false kwargs w = (Ok r, w') →
  ∃ x p0 popt l m,
    curve_fit (function (self w)) x y p0 (inv_sqrt <$> sample_weight) = Ok popt ∧
    Linear (self w') = Some l ∧ linear_store w' !! l = Some m ∧
    (order (self w) ≤ 1 → Additive (self w') = Some l) ∧
    ∀ xq m', linear_predict m Xq = Ok (xq, m') →
      let args := PyNum <$> take (length names) popt in
      predict Xq w'
      = (call (function (self w)) (Some xq) args,
         {| self := self w'; parameters_store := parameters_store w';
            linear_store := <[l := m']> (linear_store w');
            trace := trace w' ++ [EvLinearPredict l Xq;
                                  EvCall TheFunction (Some xq) args] |}).
Proof.
  intros Ho Hreach Hnd Hn Hrun.
  destruct (fit_leaves names o _ _ _ _ _ _ _ Ho Hreach Hnd Hn Hrun)
    as (x & p0 & popt & o' & l & m & c &
        Hcurve & Hfun & Ho' & Hvals & Hl & Hm & _ & _ & Hadd).
  exists x, p0, popt, l, m. split_and!; [done..|].
  intros xq m' Hpred args. rewrite <- Hfun. by eapply predict_run.
Qed.

End PredictAfterFit.

(** ** [hypothesis] and the thetas it is given *)

Section HypothesisMore.
Context `{Externals}.

Lemma slice_app_within {A} (a b : list A) lo hi :
  0 ≤ lo → 0 ≤ hi → hi ≤ Z.of_nat (length a) →
  slice (a ++ b) lo hi = slice a lo hi.
Proof.
  intros Hlo Hhi Hlen. unfold slice, clip. rewrite length_app.
  rewrite !decide_False by lia.
  replace (Z.to_nat (Z.min hi (Z.of_nat (length a + length b))))
    with (Z.to_nat hi) by lia.
  replace (Z.to_nat (Z.min hi (Z.of_nat (length a)))) with (Z.to_nat hi) by lia.
  destruct (decide (lo ≤ Z.of_nat (length a))) as [Hle|Hgt].
  - replace (Z.to_nat (Z.min lo (Z.of_nat (length a + length b))))
      with (Z.to_nat lo) by lia.
    replace (Z.to_nat (Z.min lo (Z.of_nat (length a)))) with (Z.to_nat lo) by lia.
    rewrite drop_app_le by lia. rewrite take_app_le; [done|].
    rewrite length_drop. lia.
  - replace (Z.to_nat hi - Z.to_nat (Z.min lo (Z.of_nat (length a + length b))))%nat
      with 0%nat by lia.
    by replace (Z.to_nat hi - Z.to_nat (Z.min lo (Z.of_nat (length a))))%nat
      with 0%nat by lia.
Qed.

(** X17: [hypothesis] does not check the length of [thetas]: for a
    non-negative [epistasis.n] and a vector of at least
    [parameters.n + epistasis.n] entries, whatever is appended to it is
    ignored: the call made, the result and the record are the same. *)
Theorem hypothesis_ignores_extra_thetas names (o : instance) ep xv Xv th extra w :
  parameters_store w !! parameters (self w) = Some o →
  reachable names o →
  X (self w) = Some xv → epistasis (self w) = Some ep →
  0 ≤ n ep →
  (if decide ("n" ∈ names) then 0 else Z.of_nat (length names)) + n ep
    ≤ Z.of_nat (length th) →
  hypothesis Xv (Some (th ++ extra)%list) w = hypothesis Xv (Some th) w.
Proof.
  intros Ho Hinv%reachable_inv HX Hep Hj Hlen.
  set (i := if decide ("n" ∈ names) then 0 else Z.of_nat (length names)) in *.
  assert (Hi : get_n o = Ok i) by (apply get_n_Ok, Hinv).
  assert (0 ≤ i) by (unfold i; case_decide; lia).
  rewrite !(hypothesis_unfold o i ep xv) by done.
  by rewrite !slice_app_within by lia.
Qed.

(** X18: given [thetas], [hypothesis] reads no stored parameter value:
    with any other state of the [Parameters] object in its place, as
    another fit would leave it, the outcome and the call made are the
    same. *)
Theorem hypothesis_reads_no_stored_value names (o o' : instance) Xv th w :
  parameters_store w !! parameters (self w) = Some o →
  reachable names o → reachable names o' →
  let '(r, w1) := hypothesis Xv (Some th) w in
  hypothesis Xv (Some th) (with_parameters o' w) = (r, with_parameters o' w1).
Proof.
  intros Ho Hinv%reachable_inv Hinv'%reachable_inv.
  pose proof (inv_n _ _ _ Hinv) as Hn. pose proof (inv_n _ _ _ Hinv') as Hn'.
  unfold hypothesis, with_parameters, external, log, the_parameters, attr,
    get_self, lift, raise, mbind, M_bind, bind.
  cbn [self parameters_store linear_store trace parameters].
  destruct (X (self w)) as [xv|]; [|done].
  cbn [self parameters_store linear_store trace parameters].
  rewrite Ho, lookup_insert_eq. cbn [from_option].
  rewrite !getattr_bookkeeping by compute_done. rewrite Hn, Hn'.
  destruct (epistasis (self w)) as [ep|]; cbn [from_option]; [|done].
  destruct (np_dot Xv _) as [y1|e]; [|done].
  cbn [self parameters_store linear_store trace parameters]. done.
Qed.

End HypothesisMore.

(** ** The code run on the small world *)

Section Runs.
Import Example.
#[local] Existing Instance numeric.
#[local] Existing Instance package.
#[local] Existing Instance externals.

Lemma built_reachable names :
  (∃ o, Parameters.__init__ names = Ok o) → reachable names (built names).
Proof. intros [o Ho]. apply reach_init. unfold built. by rewrite Ho. Qed.

(** The two runs of the counterexample below, in full. *)
Example fit_at_order_one :
  let '(r, w) := fit (Some identity) (Some [5; 6]) None false [] (ready 1) in
  r = Ok Self ∧ Linear (self w) = Additive (self w) ∧
  trace w = [EvNewLinear 1 "global"; EvAttachGpm 0%nat; EvNewLinear 1 "global";
             EvLinearFit 0%nat None None; EvLinearPredict 0%nat None;
             EvCurveFit TheFunction [1; 2] (Some [5; 6]) [1; 1] None].
Proof. vm_compute. by split_and!. Qed.

Example fit_with_unknown_guess :
  let '(r, w) := fit (Some identity) (Some [5; 6]) None false [("C", 1)] (ready 2) in
  r = Raise KeyError ∧
  trace w = [EvNewLinear 1 "global"; EvAttachGpm 0%nat; EvNewLinear 2 "global";
             EvLinearFit 0%nat None None; EvLinearPredict 0%nat None].
Proof. vm_compute. by split_and!. Qed.

(** C1 as stated fails twice.  With the default order 1, [fit] returns
    after the solver: the inverse function is never applied and no second
    linear fit is made.  With order 2 and a guess for a name that is no
    parameter, [fit] raises [KeyError] after the additive fit, before the
    solver is called. *)
Lemma fit_skips_stages :
  ¬ fit_runs_four_stages (Some identity) (Some [5; 6]) None [] (ready 1) ∧
  ¬ fit_runs_four_stages (Some identity) (Some [5; 6]) None [("C", 1)] (ready 2).
Proof.
  split; intros Hclaim.
  - destruct Hclaim as (evs & Htrace & (a & l & o & mt & x & p0 & sigma & vals & lX & ly & ->)).
    { vm_compute. eauto. }
    vm_compute in Htrace. discriminate Htrace.
  - destruct Hclaim as (evs & Htrace & (a & l & o & mt & x & p0 & sigma & vals & lX & ly & ->)).
    { vm_compute. eauto. }
    vm_compute in Htrace. discriminate Htrace.
Qed.

(** The amended C1 on an estimator of order 2. *)
Lemma fit_is_one_pass_witness :
  fit (Some identity) (Some [5; 6]) None false [] (ready 2) = (Ok Self, fitted 2) ∧
  ∃ evs, trace (fitted 2) = (trace (ready 2) ++ evs)%list ∧
         four_stages (Some [5; 6]) evs.
Proof.
  assert (Hrun : fit (Some identity) (Some [5; 6]) None false [] (ready 2)
                 = (Ok Self, fitted 2)) by (vm_compute; reflexivity).
  split; [exact Hrun|].
  destruct (fit_is_one_pass _ _ _ _ _ _ _ Hrun)
    as (g & a & l & ma0 & ma1 & ma2 & ma3 & ml0 & x & o & p0 & popt & o' &
        _ & _ & _ & _ & _ & _ & _ & _ & _ & _ & _ & _ & Hbranch).
  destruct (decide (1 < order (self (ready 2)))) as [_|Hn].
  - destruct Hbranch as (vals & ly & ml' & evs & _ & _ & _ & _ & _ & _ & Htrace & Hstages).
    eauto.
  - exfalso. apply Hn. vm_compute. reflexivity.
Defined.



(** C3 on an estimator as the constructor leaves it. *)
Lemma fit_without_gpm_raises_witness :
  gpm (self (fresh_estimator 1)) = None ∧
  fit None None None false [] (fresh_estimator 1)
  = (Raise (Exception no_gpm_message), fresh_estimator 1).
Proof.
  assert (Hg : gpm (self (fresh_estimator 1)) = None) by (vm_compute; reflexivity).
  split; [exact Hg|]. exact (fit_without_gpm_raises _ _ _ _ _ _ Hg).
Defined.

(** C10 on an estimator as the constructor leaves it. *)
Lemma hypothesis_requires_X_witness :
  X (self (fresh_estimator 1)) = None ∧
  hypothesis None None (fresh_estimator 1)
  = (Raise (Exception no_X_message), fresh_estimator 1).
Proof.
  assert (HX : X (self (fresh_estimator 1)) = None) by (vm_compute; reflexivity).
  split; [exact HX|].
  destruct (hypothesis None None (fresh_estimator 1)) as [r w'] eqn:Hrun.
  destruct (hypothesis_requires_X _ _ _ _ _ Hrun) as [Hraise _].
  destruct (Hraise HX) as [-> ->]. reflexivity.
Defined.

(** C5 on an estimator of order 2, with a guess for [B]. *)
Lemma fit_stores_solution_in_place_witness :
  parameters_store (ready 2) !! parameters (self (ready 2)) = Some (built ["A"; "B"]) ∧
  NoDup ["A"; "B"] ∧
  fit (Some identity) (Some [5; 6]) None false [("B", 3)] (ready 2)
  = (Ok Self, (fit (Some identity) (Some [5; 6]) None false [("B", 3)] (ready 2)).2) ∧
  parameters (self (fit (Some identity) (Some [5; 6]) None false [("B", 3)] (ready 2)).2)
  = parameters (self (ready 2)).
Proof.
  assert (Ho : parameters_store (ready 2) !! parameters (self (ready 2))
               = Some (built ["A"; "B"])) by (vm_compute; reflexivity).
  assert (Hnd : NoDup ["A"; "B"]) by compute_done.
  assert (Hrun : fit (Some identity) (Some [5; 6]) None false [("B", 3)] (ready 2)
    = (Ok Self, (fit (Some identity) (Some [5; 6]) None false [("B", 3)] (ready 2)).2))
    by (vm_compute; reflexivity).
  split_and!; [exact Ho | exact Hnd | exact Hrun |].
  eapply (fit_stores_solution_in_place ["A"; "B"]); [exact Ho | | exact Hnd | exact Hrun].
  apply built_reachable. eexists. vm_compute. reflexivity.
Defined.





(** C4 fails on the code for [def hill(x, n, K)]: the constructor
    returns, the keys are the two names and both parameters are 0, and
    [setattr(self, "n", 0)] has replaced the size, so that [n] is 0 and
    not 2. *)
Theorem parameter_named_n_overwrites_size :
  ∃ w o, __init__ hill g 1 "global" true = Ok w ∧
    parameters_store w !! parameters (self w) = Some o ∧
    Parameters.keys o = Ok ["n"; "K"] ∧
    Parameters.values o = Ok [PyInt 0; PyInt 0] ∧
    get_n o = Ok 0.
Proof. eexists _, _. split_and!; vm_compute; reflexivity. Qed.

(** C6 fails on the code for every object and file name, here
    [Parameters(["A"]).to_json("params.json")]: the file is created empty,
    [json.dump(f, self())] gets the file where the dictionary belongs and
    raises [TypeError], and nothing is written. *)
Theorem to_json_writes_nothing :
  Parameters.__call__ (built ["A"]) = Ok [("A", PyInt 0)] ∧
  ∃ fs, Parameters.to_json braces (built ["A"]) "params.json" no_files
        = (Raise (TypeError "Object of type TextIOWrapper is not JSON serializable"), fs) ∧
        Parameters.files fs !! "params.json" = Some EmptyString.
Proof.
  split; [vm_compute; reflexivity|]. eexists. split.
  - apply (to_json_raises _ _ _ _ [("A", PyInt 0)]); vm_compute; reflexivity.
  - apply lookup_insert_eq.
Qed.


End Runs.

(** ** The further properties on the small world *)

Import Example.
#[local] Existing Instance numeric.
#[local] Existing Instance package.
#[local] Existing Instance externals.
#[local] Existing Instance scoring.

Lemma built_AB : reachable ["A"; "B"] (built ["A"; "B"]).
Proof. apply built_reachable. eexists. vm_compute. reflexivity. Qed.

(** X2 on the names of [def f(x, A, B)]. *)
Lemma init_of_plain_names_witness :
  (Forall (λ p, p ∉ (properties ++ object_slots ++ bookkeeping)%list) ["A"; "B"]) ∧
  ("n" ∉ ["A"; "B"]) ∧
  ∃ o, Parameters.__init__ ["A"; "B"] = Ok o ∧
       Parameters.values o = Ok [PyInt 0; PyInt 0] ∧ get_n o = Ok 2.
Proof.
  assert (Hplain : Forall (λ p, p ∉ (properties ++ object_slots ++ bookkeeping)%list)
                     ["A"; "B"]) by compute_done.
  assert (Hn : "n" ∉ ["A"; "B"]) by compute_done.
  split_and!; [exact Hplain | exact Hn |].
  destruct (init_of_plain_names ["A"; "B"] Hplain Hn) as (o & Ho & _ & Hvals & Hsize).
  exists o. split_and!; [exact Ho | exact Hvals | exact Hsize].
Defined.

(** X3: index 1 stores under [B]; index -1 is no key. *)
Lemma set_param_by_index_witness :
  reachable ["A"; "B"] (built ["A"; "B"]) ∧
  (∃ name, ["A"; "B"] !! 1%nat = Some name ∧
     Parameters._set_param (built ["A"; "B"]) (Parameters.PIndex 1) (PyNum 5)
     = Ok (<[name := PyNum 5]> (built ["A"; "B"]))) ∧
  Parameters._set_param (built ["A"; "B"]) (Parameters.PIndex (-1)) (PyNum 5)
  = Raise KeyError.
Proof.
  split; [exact built_AB|]. split.
  - destruct (set_param_by_index ["A"; "B"] (built ["A"; "B"]) 1 (@PyNum numeric 5) built_AB)
      as [Hok _].
    apply Hok. simpl. lia.
  - destruct (set_param_by_index ["A"; "B"] (built ["A"; "B"]) (-1) (@PyNum numeric 5) built_AB)
      as [_ Hraise].
    apply Hraise. simpl. lia.
Defined.

(** X4: the name [B], the float 1.0 and the integer 1. *)
Lemma set_param_by_name_or_index_witness :
  reachable ["A"; "B"] (built ["A"; "B"]) ∧ 0 ≤ 1 ∧
  ["A"; "B"] !! Z.to_nat 1 = Some "B" ∧ as_integer (1 : scalar) = Some 1 ∧
  Parameters._set_param (built ["A"; "B"]) (Parameters.PName "B") (PyNum 5)
  = Parameters._set_param (built ["A"; "B"]) (Parameters.PIndex 1) (PyNum 5) ∧
  Parameters._set_param (built ["A"; "B"]) (Parameters.PFloat 1) (PyNum 5)
  = Parameters._set_param (built ["A"; "B"]) (Parameters.PIndex 1) (PyNum 5).
Proof.
  assert (Hi : 0 ≤ 1) by lia.
  assert (Hname : ["A"; "B"] !! Z.to_nat 1 = Some "B") by reflexivity.
  assert (Hx : as_integer (1 : scalar) = Some 1) by reflexivity.
  split_and!; [exact built_AB | exact Hi | exact Hname | exact Hx | |];
    apply (set_param_by_name_or_index ["A"; "B"] (built ["A"; "B"]) 1 "B" 1
             (@PyNum numeric 5) built_AB Hi Hname Hx).
Defined.

(** X5: storing 5 at index 1. *)
Lemma set_param_changes_one_value_witness :
  reachable ["A"; "B"] (built ["A"; "B"]) ∧ NoDup ["A"; "B"] ∧
  Parameters._set_param (built ["A"; "B"]) (Parameters.PIndex 1) (PyNum 5)
  = Ok (<["B" := PyNum 5]> (built ["A"; "B"])) ∧
  Parameters.values (<["B" := PyNum 5]> (built ["A"; "B"]))
  = (vs ← Parameters.values (built ["A"; "B"]); Ok (<[Z.to_nat 1 := PyNum 5]> vs)).
Proof.
  assert (Hnd : NoDup ["A"; "B"]) by compute_done.
  assert (Hset : Parameters._set_param (built ["A"; "B"]) (Parameters.PIndex 1) (PyNum 5)
                 = Ok (<["B" := PyNum 5]> (built ["A"; "B"])))
    by (vm_compute; reflexivity).
  split_and!; [exact built_AB | exact Hnd | exact Hset |].
  apply (set_param_changes_one_value ["A"; "B"] _ _ 1 _ built_AB Hnd Hset).
Defined.

(** X6: a value stored under [C], which is no parameter of [f]. *)
Lemma set_param_unknown_name_witness :
  reachable ["A"; "B"] (built ["A"; "B"]) ∧
  ("C" ∉ ["A"; "B"]) ∧ ("C" ∉ "n" :: bookkeeping) ∧
  ("C" ∉ (properties ++ object_slots)%list) ∧
  ∃ o', Parameters._set_param (built ["A"; "B"]) (Parameters.PName "C") (PyNum 5)
        = Ok o' ∧
        Parameters.values o' = Parameters.values (built ["A"; "B"]).
Proof.
  assert (H1 : "C" ∉ ["A"; "B"]) by compute_done.
  assert (H2 : "C" ∉ "n" :: bookkeeping) by compute_done.
  assert (H3 : "C" ∉ (properties ++ object_slots)%list) by compute_done.
  split_and!; [exact built_AB | exact H1 | exact H2 | exact H3 |].
  destruct (set_param_unknown_name ["A"; "B"] (built ["A"; "B"]) "C" (@PyNum numeric 5)
              built_AB H1 H2 H3) as (o' & Hset & _ & _ & Hvals & _).
  exists o'. split; [exact Hset | exact Hvals].
Defined.

(** X8 on a fitted estimator. *)
Lemma hypothesis_changes_nothing_witness :
  hypothesis (Some identity) (Some [11; 11; 7; 8]) (fitted 2)
  = (Ok [7; 8], (hypothesis (Some identity) (Some [11; 11; 7; 8]) (fitted 2)).2) ∧
  self (hypothesis (Some identity) (Some [11; 11; 7; 8]) (fitted 2)).2
  = self (fitted 2).
Proof.
  assert (Hrun : hypothesis (Some identity) (Some [11; 11; 7; 8]) (fitted 2)
    = (Ok [7; 8], (hypothesis (Some identity) (Some [11; 11; 7; 8]) (fitted 2)).2))
    by (vm_compute; reflexivity).
  split; [exact Hrun|].
  apply (hypothesis_changes_nothing _ _ _ _ _ Hrun).
Defined.

(** X9 on a fitted estimator. *)
Lemma thetas_changes_nothing_witness :
  thetas (fitted 2) = (Ok [11; 11; 7; 8], (thetas (fitted 2)).2) ∧
  (thetas (fitted 2)).2 = fitted 2.
Proof.
  assert (Hrun : thetas (fitted 2) = (Ok [11; 11; 7; 8], (thetas (fitted 2)).2))
    by (vm_compute; reflexivity).
  split; [exact Hrun|]. exact (thetas_changes_nothing _ _ _ Hrun).
Defined.

(** X10 on a fitted estimator. *)
Lemma predict_keeps_the_estimator_witness :
  predict (Some identity) (fitted 2)
  = (Ok [1; 2], (predict (Some identity) (fitted 2)).2) ∧
  self (predict (Some identity) (fitted 2)).2 = self (fitted 2) ∧
  is_Some (Linear (self (fitted 2))).
Proof.
  assert (Hrun : predict (Some identity) (fitted 2)
                 = (Ok [1; 2], (predict (Some identity) (fitted 2)).2))
    by (vm_compute; reflexivity).
  split; [exact Hrun|].
  destruct (predict_keeps_the_estimator _ _ _ _ Hrun) as (Hs & _ & Hl).
  split; [exact Hs|]. apply Hl. eexists. reflexivity.
Defined.

(** X11 on a fitted estimator with its model matrices. *)
Lemma score_keeps_the_estimator_witness :
  score (Some identity) (Some [5; 6]) (fitted_with_X 2)
  = (Ok (1, 1), (score (Some identity) (Some [5; 6]) (fitted_with_X 2)).2) ∧
  self (score (Some identity) (Some [5; 6]) (fitted_with_X 2)).2
  = self (fitted_with_X 2) ∧
  is_Some (Additive (self (fitted_with_X 2))) ∧
  is_Some (Linear (self (fitted_with_X 2))).
Proof.
  assert (Hrun : score (Some identity) (Some [5; 6]) (fitted_with_X 2)
    = (Ok (1, 1), (score (Some identity) (Some [5; 6]) (fitted_with_X 2)).2))
    by (vm_compute; reflexivity).
  split; [exact Hrun|].
  destruct (score_keeps_the_estimator _ _ _ _ _ Hrun) as (Hs & _ & Hl).
  split; [exact Hs|]. apply Hl. eexists. reflexivity.
Defined.

(** X12 on a fit that raises: the guess is for a name that is no
    parameter. *)
Lemma fit_keeps_parameters_well_formed_witness :
  parameters_store (ready 2) !! parameters (self (ready 2)) = Some (built ["A"; "B"]) ∧
  fit (Some identity) (Some [5; 6]) None false [("C", 1)] (ready 2)
  = (Raise KeyError,
     (fit (Some identity) (Some [5; 6]) None false [("C", 1)] (ready 2)).2) ∧
  ∃ o', parameters_store
          (fit (Some identity) (Some [5; 6]) None false [("C", 1)] (ready 2)).2
          !! parameters (self (ready 2)) = Some o' ∧
        Parameters.keys o' = Ok ["A"; "B"].
Proof.
  assert (Ho : parameters_store (ready 2) !! parameters (self (ready 2))
               = Some (built ["A"; "B"])) by (vm_compute; reflexivity).
  assert (Hrun : fit (Some identity) (Some [5; 6]) None false [("C", 1)] (ready 2)
    = (Raise KeyError,
       (fit (Some identity) (Some [5; 6]) None false [("C", 1)] (ready 2)).2))
    by (vm_compute; reflexivity).
  split_and!; [exact Ho | exact Hrun |].
  destruct (fit_keeps_parameters_well_formed ["A"; "B"] _ _ _ _ _ _ _ _ _
              Ho built_AB Hrun) as (_ & _ & o' & Ho' & _ & Hkeys).
  exists o'. split; [exact Ho' | exact Hkeys].
Defined.

(** X13 on the same failing fit: the additive sub-model is a new one. *)
Lemma fit_replaces_the_additive_model_witness :
  gpm (self (ready 2)) = Some [0; 1] ∧
  linear_new 1 (model_type (self (ready 2)))
  = Ok {| lm_X := None; lm_coef_ := None; lm_core := 1 |} ∧
  fit (Some identity) (Some [5; 6]) None false [("C", 1)] (ready 2)
  = (Raise KeyError,
     (fit (Some identity) (Some [5; 6]) None false [("C", 1)] (ready 2)).2) ∧
  ∃ a, Additive (self (fit (Some identity) (Some [5; 6]) None false [("C", 1)]
                         (ready 2)).2) = Some a ∧
       linear_store (ready 2) !! a = None.
Proof.
  assert (Hg : gpm (self (ready 2)) = Some ([0; 1] : gpmap))
    by (vm_compute; reflexivity).
  assert (Hnew : linear_new 1 (model_type (self (ready 2)))
                 = Ok {| lm_X := None; lm_coef_ := None; lm_core := 1 |})
    by (vm_compute; reflexivity).
  assert (Hrun : fit (Some identity) (Some [5; 6]) None false [("C", 1)] (ready 2)
    = (Raise KeyError,
       (fit (Some identity) (Some [5; 6]) None false [("C", 1)] (ready 2)).2))
    by (vm_compute; reflexivity).
  split_and!; [exact Hg | exact Hnew | exact Hrun |].
  exact (fit_replaces_the_additive_model _ _ _ _ _ _ _ _ _ _ Hg Hnew Hrun).
Defined.

(** X14 with a guess for [B]: the solver starts from [1; 3]. *)
Lemma fit_starts_from_the_guesses_witness :
  parameters_store (ready 2) !! parameters (self (ready 2)) = Some (built ["A"; "B"]) ∧
  NoDup ["A"; "B"] ∧ ("n" ∉ ["A"; "B"]) ∧ NoDup [("B", 3)].*1 ∧
  fit (Some identity) (Some [5; 6]) None false [("B", 3)] (ready 2)
  = (Ok Self, (fit (Some identity) (Some [5; 6]) None false [("B", 3)] (ready 2)).2) ∧
  ∃ x p0,
    EvCurveFit TheFunction x (Some [5; 6]) p0 None
    ∈ trace (fit (Some identity) (Some [5; 6]) None false [("B", 3)] (ready 2)).2 ∧
    p0 !! 0%nat = Some 1 ∧ p0 !! 1%nat = Some 3.
Proof.
  assert (Ho : parameters_store (ready 2) !! parameters (self (ready 2))
               = Some (built ["A"; "B"])) by (vm_compute; reflexivity).
  assert (Hnd : NoDup ["A"; "B"]) by compute_done.
  assert (Hn : "n" ∉ ["A"; "B"]) by compute_done.
  assert (Hkw : NoDup [("B", 3)].*1) by compute_done.
  assert (Hrun : fit (Some identity) (Some [5; 6]) None false [("B", 3)] (ready 2)
    = (Ok Self, (fit (Some identity) (Some [5; 6]) None false [("B", 3)] (ready 2)).2))
    by (vm_compute; reflexivity).
  split_and!; [exact Ho | exact Hnd | exact Hn | exact Hkw | exact Hrun |].
  destruct (fit_starts_from_the_guesses ["A"; "B"] _ _ _ _ _ _ _ _
              Ho built_AB Hnd Hn Hkw Hrun) as (_ & x & p0 & Hev & _ & Hval).
  exists x, p0. split_and!; [exact Hev | |].
  - exact (Hval 0%nat "A" eq_refl).
  - exact (Hval 1%nat "B" eq_refl).
Defined.

(** X15 after the fit with a guess for [B]. *)
Lemma thetas_after_fit_witness :
  parameters_store (ready 2) !! parameters (self (ready 2)) = Some (built ["A"; "B"]) ∧
  NoDup ["A"; "B"] ∧ ("n" ∉ ["A"; "B"]) ∧
  fit (Some identity) (Some [5; 6]) None false [("B", 3)] (ready 2)
  = (Ok Self, (fit (Some identity) (Some [5; 6]) None false [("B", 3)] (ready 2)).2) ∧
  ∃ popt c,
    thetas (fit (Some identity) (Some [5; 6]) None false [("B", 3)] (ready 2)).2
    = (Ok (take 2 popt ++ c)%list,
       (fit (Some identity) (Some [5; 6]) None false [("B", 3)] (ready 2)).2).
Proof.
  assert (Ho : parameters_store (ready 2) !! parameters (self (ready 2))
               = Some (built ["A"; "B"])) by (vm_compute; reflexivity).
  assert (Hnd : NoDup ["A"; "B"]) by compute_done.
  assert (Hn : "n" ∉ ["A"; "B"]) by compute_done.
  assert (Hrun : fit (Some identity) (Some [5; 6]) None false [("B", 3)] (ready 2)
    = (Ok Self, (fit (Some identity) (Some [5; 6]) None false [("B", 3)] (ready 2)).2))
    by (vm_compute; reflexivity).
  split_and!; [exact Ho | exact Hnd | exact Hn | exact Hrun |].
  destruct (thetas_after_fit ["A"; "B"] _ _ _ _ _ _ _ _ Ho built_AB Hnd Hn Hrun)
    as (x & p0 & popt & c & _ & _ & Hth).
  exists popt, c. exact Hth.
Defined.

(** X16 after the same fit. *)
Lemma predict_after_fit_witness :
  parameters_store (ready 2) !! parameters (self (ready 2)) = Some (built ["A"; "B"]) ∧
  NoDup ["A"; "B"] ∧ ("n" ∉ ["A"; "B"]) ∧
  fit (Some identity) (Some [5; 6]) None false [("B", 3)] (ready 2)
  = (Ok Self, (fit (Some identity) (Some [5; 6]) None false [("B", 3)] (ready 2)).2) ∧
  ∃ popt l m,
    Linear (self (fit (Some identity) (Some [5; 6]) None false [("B", 3)]
                    (ready 2)).2) = Some l ∧
    linear_store (fit (Some identity) (Some [5; 6]) None false [("B", 3)]
                    (ready 2)).2 !! l = Some m ∧
    (predict (Some identity)
       (fit (Some identity) (Some [5; 6]) None false [("B", 3)] (ready 2)).2).1
    = call (function (self (ready 2))) (Some [1; 2]) (PyNum <$> take 2 popt).
Proof.
  assert (Ho : parameters_store (ready 2) !! parameters (self (ready 2))
               = Some (built ["A"; "B"])) by (vm_compute; reflexivity).
  assert (Hnd : NoDup ["A"; "B"]) by compute_done.
  assert (Hn : "n" ∉ ["A"; "B"]) by compute_done.
  assert (Hrun : fit (Some identity) (Some [5; 6]) None false [("B", 3)] (ready 2)
    = (Ok Self, (fit (Some identity) (Some [5; 6]) None false [("B", 3)] (ready 2)).2))
    by (vm_compute; reflexivity).
  split_and!; [exact Ho | exact Hnd | exact Hn | exact Hrun |].
  destruct (predict_after_fit ["A"; "B"] _ _ _ _ _ _ _ _ (Some identity)
              Ho built_AB Hnd Hn Hrun)
    as (x & p0 & popt & l & m & _ & Hl & Hm & _ & Hpred).
  exists popt, l, m. split_and!; [exact Hl | exact Hm |].
  rewrite (Hpred [1; 2] m eq_refl). reflexivity.
Defined.

(** X17: a fifth entry changes nothing. *)
Lemma hypothesis_ignores_extra_thetas_witness :
  parameters_store (ready 2) !! parameters (self (ready 2)) = Some (built ["A"; "B"]) ∧
  X (self (ready 2)) = Some (Some identity) ∧
  hypothesis (Some identity) (Some ([1; 2; 3; 4] ++ [9])%list) (ready 2)
  = hypothesis (Some identity) (Some [1; 2; 3; 4]) (ready 2).
Proof.
  assert (Ho : parameters_store (ready 2) !! parameters (self (ready 2))
               = Some (built ["A"; "B"])) by (vm_compute; reflexivity).
  assert (HX : X (self (ready 2)) = Some (Some identity)) by (vm_compute; reflexivity).
  assert (Hep : epistasis (self (ready 2))
                = Some {| sites := [[0%nat]; [1%nat]] : list site; n := 2 |})
    by (vm_compute; reflexivity).
  split_and!; [exact Ho | exact HX |].
  apply (hypothesis_ignores_extra_thetas ["A"; "B"] _ _ _ _ _ _ _ Ho built_AB HX Hep).
  - simpl. lia.
  - vm_compute. discriminate.
Defined.

(** X18: with the value 5 stored for [B] in place of 0. *)
Lemma hypothesis_reads_no_stored_value_witness :
  parameters_store (ready 2) !! parameters (self (ready 2)) = Some (built ["A"; "B"]) ∧
  reachable ["A"; "B"] (<["B" := PyNum 5]> (built ["A"; "B"])) ∧
  let '(r, w1) := hypothesis (Some identity) (Some [1; 2; 3; 4]) (ready 2) in
  hypothesis (Some identity) (Some [1; 2; 3; 4])
    (with_parameters (<["B" := PyNum 5]> (built ["A"; "B"])) (ready 2))
  = (r, with_parameters (<["B" := PyNum 5]> (built ["A"; "B"])) w1).
Proof.
  assert (Ho : parameters_store (ready 2) !! parameters (self (ready 2))
               = Some (built ["A"; "B"])) by (vm_compute; reflexivity).
  assert (Hreach : reachable ["A"; "B"] (<["B" := PyNum 5]> (built ["A"; "B"]))).
  { apply (reach_set ["A"; "B"] (built ["A"; "B"]) 2 1 (@PyNum numeric 5));
      [exact built_AB | vm_compute; reflexivity | lia | vm_compute; reflexivity]. }
  split_and!; [exact Ho | exact Hreach |].
  exact (hypothesis_reads_no_stored_value ["A"; "B"] _ _ (Some identity)
           [1; 2; 3; 4] (ready 2) Ho built_AB Hreach).
Defined.
